(** * Smart bin monitoring: the ingestion service and the level simulator

    A shallow embedding of [app.py] (the Flask service: level ingestion,
    alerting under a cooldown, readings query, pause flag, manual alert)
    and of [sensor_simulator.py] (the stochastic level generator), with
    the properties the specification states about them.

    Conventions of the embedding.
    - Python [int] is [Z]; Python [float] is the rational it denotes
      ([Q]); rounding of float arithmetic is not modelled.  The only
      float arithmetic in the code is [now_ts - last_alert_ts] and
      [0.25 + 0.15 * k].
    - A parsed JSON body is a value of [json]; a Python [dict] read from
      JSON is an association list with unique keys.
    - The relational store is a record of tables, each a list of rows in
      insertion order.  The store is SQLite (line 29): an integer bound
      to a statement must fit 64 signed bits, or the statement raises
      [OverflowError]; nothing of a session whose commit raises reaches
      the store.
    - [int] applied to a string, like [datetime.isoformat], is a builtin
      the service calls: it is a field of the environment, and the
      theorems hold for whatever it computes.
    - Every call of [safe_send_sms] is recorded in the world, so that
      "a send was attempted" is an observable of the model.
    - The module-level dictionaries of the simulator are [gmap]s. *)

From Stdlib Require Import ZArith QArith String Ascii List Lia DecimalString.
From Stdlib Require Import Sorting.Sorted Sorting.Permutation.
From stdpp Require Import gmap strings.
Import ListNotations.

Set Warnings "-register-all".

Open Scope string_scope.
Open Scope list_scope.
Open Scope Z_scope.

(** ** Python values read from a request body *)

Module Py.

(** Exceptions that the modelled code can raise. *)
Inductive exn : Type :=
| AttributeError
| TypeError
| ValueError
| OverflowError
| KeyError.

(** A Python float as [json.loads] can produce it: [NaN], [Infinity] and
    [-Infinity] are accepted by the parser. *)
Inductive pyfloat : Type :=
| FFinite (q : Q)
| FInf (negative : bool)
| FNan.

(** The value [request.get_json] returns for a body that parses. *)
Inductive json : Type :=
| JNull
| JBool (b : bool)
| JInt (z : Z)
| JFloat (f : pyfloat)
| JStr (s : string)
| JArr (items : list json)
| JObj (fields : list (string * json)).

(** [bool(v)]: Python truthiness. *)
Definition truthy (v : json) : bool :=
  match v with
  | JNull => false
  | JBool b => b
  | JInt z => negb (z =? 0)
  | JFloat (FFinite q) => negb (Qeq_bool q 0)
  | JFloat _ => true
  | JStr s => negb (String.eqb s "")
  | JArr items => match items with [] => false | _ => true end
  | JObj fields => match fields with [] => false | _ => true end
  end.

(** [x or y]. *)
Definition py_or (x y : json) : json := if truthy x then x else y.

(** [d.get(key)] on a dict: the value, or [None]. *)
Fixpoint dict_get (key : string) (d : list (string * json)) : json :=
  match d with
  | [] => JNull
  | (k, v) :: d' => if String.eqb k key then v else dict_get key d'
  end.

(** [key in d] on a dict. *)
Fixpoint dict_mem (key : string) (d : list (string * json)) : bool :=
  match d with
  | [] => false
  | (k, _) :: d' => String.eqb k key || dict_mem key d'
  end.

(** [data.get(key)] on an arbitrary value: only a dict has the method. *)
Definition py_get (data : json) (key : string) : exn + json :=
  match data with
  | JObj d => inr (dict_get key d)
  | _ => inl AttributeError
  end.

Definition is_none (v : json) : bool :=
  match v with JNull => true | _ => false end.

(** [s in t] on strings. *)
Fixpoint is_substring (s t : string) : bool :=
  String.prefix s t
  || match t with
     | EmptyString => false
     | String _ t' => is_substring s t'
     end.

(** [key in data] on an arbitrary value. *)
Definition py_contains (key : string) (data : json) : exn + bool :=
  match data with
  | JObj d => inr (dict_mem key d)
  | JArr items =>
      inr (existsb (fun v => match v with
                             | JStr s => String.eqb s key
                             | _ => false
                             end) items)
  | JStr s => inr (is_substring key s)
  | _ => inl TypeError
  end.

(** [data[key]] for a string key. *)
Definition py_getitem (data : json) (key : string) : exn + json :=
  match data with
  | JObj d => if dict_mem key d then inr (dict_get key d) else inl KeyError
  | _ => inl TypeError
  end.

(** *** [int(s)] on ASCII text

    The builtin [int] on a string is a parameter of the embedding (the
    field [int_str] of the environment).  [int_of_str] below is what it
    computes on ASCII text, base 10: the whitespace of the C locale
    (bytes 9 to 13, and 32) is dropped at both ends, one sign may
    precede the digits, and single underscores may separate digits.  It
    serves in the sample environments. *)

Definition is_space (c : ascii) : bool :=
  let n := Z.of_nat (nat_of_ascii c) in
  ((9 <=? n) && (n <=? 13)) || (n =? 32).

Definition is_digit (c : ascii) : bool :=
  let n := Z.of_nat (nat_of_ascii c) in (48 <=? n) && (n <=? 57).

Definition digit_val (c : ascii) : Z := Z.of_nat (nat_of_ascii c) - 48.

Fixpoint lstrip (s : list ascii) : list ascii :=
  match s with
  | c :: s' => if is_space c then lstrip s' else s
  | [] => []
  end.

Definition strip (s : list ascii) : list ascii :=
  rev (lstrip (rev (lstrip s))).

Fixpoint parse_digits (s : list ascii) (acc : Z) (after_digit : bool)
  : option Z :=
  match s with
  | [] => if after_digit then Some acc else None
  | c :: s' =>
      if is_digit c then parse_digits s' (10 * acc + digit_val c) true
      else if Ascii.eqb c "_" then
        if after_digit then parse_digits s' acc false else None
      else None
  end.

Definition int_of_str (s : string) : option Z :=
  match strip (list_ascii_of_string s) with
  | c :: s' =>
      if Ascii.eqb c "-" then option_map Z.opp (parse_digits s' 0 false)
      else if Ascii.eqb c "+" then parse_digits s' 0 false
      else parse_digits (c :: s') 0 false
  | [] => None
  end.

(** [int(v)], given [int] on strings: [int_str s] is the integer, or
    [None] when [int(s)] raises [ValueError]. *)
Definition py_int (int_str : string -> option Z) (v : json) : exn + Z :=
  match v with
  | JNull => inl TypeError
  | JBool b => inr (if b then 1 else 0)
  | JInt z => inr z
  | JFloat (FFinite q) => inr (Z.quot (Qnum q) (Z.pos (Qden q)))
  | JFloat (FInf _) => inl OverflowError
  | JFloat FNan => inl ValueError
  | JStr s => match int_str s with Some z => inr z | None => inl ValueError end
  | JArr _ => inl TypeError
  | JObj _ => inl TypeError
  end.

(** [str(z)] for an integer. *)
Definition str_of_int (z : Z) : string := NilZero.string_of_int (Z.to_int z).

(** [str(b)] for a boolean, and [str(b).lower()]. *)
Definition str_of_bool (b : bool) : string := if b then "True" else "False".
Definition lower_of_bool (b : bool) : string := if b then "true" else "false".

(** [str(x)] for an optional string ([None] prints as its name). *)
Definition str_of_opt (o : option string) : string :=
  match o with Some s => s | None => "None" end.

(** An optional string as [jsonify] renders it. *)
Definition json_of_opt (o : option string) : json :=
  match o with Some s => JStr s | None => JNull end.

End Py.
Import Py.

(** ** The service ([app.py]) *)

Module App.

(** *** Tables *)

Record Bin : Type := mkBin {
  name : string;
  last_alert_ts : option Q;
  latest_level : Z
}.

Record Reading : Type := mkReading {
  bin_name : string;
  level : Z;
  ts : Z
}.

Record Setting : Type := mkSetting {
  key : string;
  value : string
}.

Record ActionLog : Type := mkActionLog {
  action_type : string;
  detail : option string;
  log_ts : Z
}.

Record database : Type := mkDatabase {
  bins : list Bin;
  readings_tbl : list Reading;
  settings : list Setting;
  action_logs : list ActionLog
}.

(** The state a request runs in: the store, and the calls of
    [safe_send_sms] made so far (bin name and level, oldest first). *)
Record world : Type := mkWorld {
  store : database;
  sms_calls : list (string * Z)
}.

(** *** Configuration and collaborators *)

Record config : Type := mkConfig {
  TWILIO_ACCOUNT_SID : option string;
  TWILIO_AUTH_TOKEN : option string;
  TWILIO_PHONE_NUMBER : option string;
  YOUR_PHONE_NUMBER : option string;
  ALERT_COOLDOWN_SECONDS : Z
}.

(** What a request reads from outside: the configuration, the clocks
    ([time.time()] and [datetime.utcnow()], the latter in microseconds),
    the outcome of [client.messages.create] (a message sid, or the text
    of the exception it raises), [datetime.isoformat] and the builtin
    [int] on strings. *)
Record env : Type := mkEnv {
  conf : config;
  time_time : Q;
  utcnow : Z;
  twilio_create : string -> Z -> string + string;
  isoformat : Z -> string;
  int_str : string -> option Z
}.

(** An integer that SQLite accepts as a bound value. *)
Definition sqlite_int (z : Z) : bool :=
  (- 2 ^ 63 <=? z) && (z <? 2 ^ 63).

(** The dict [safe_send_sms] returns. *)
Inductive sms_result : Type :=
| Sent (sid : string)
| NotSent (error : string).

Definition res_sent (r : sms_result) : bool :=
  match r with Sent _ => true | NotSent _ => false end.

Definition res_sid (r : sms_result) : option string :=
  match r with Sent sid => Some sid | NotSent _ => None end.

Definition res_error (r : sms_result) : option string :=
  match r with Sent _ => None | NotSent e => Some e end.

(** What a view function produces: a JSON body with a status code, or an
    exception that escapes it (Flask answers 500). *)
Inductive outcome : Type :=
| Response (body : json) (code : Z)
| Uncaught (e : exn).

(** *** State passing *)

Definition M (A : Type) : Type := world -> A * world.

Definition ret {A} (a : A) : M A := fun w => (a, w).

Definition bind {A B} (m : M A) (k : A -> M B) : M B :=
  fun w => let (a, w') := m w in k a w'.

Notation "'let*' x ':=' m 'in' k" := (bind m (fun x => k))
  (at level 10, x name, m at level 100, k at level 200).

Definition get_store : M database := fun w => (store w, w).

Definition put_store (d : database) : M unit :=
  fun w => (tt, mkWorld d (sms_calls w)).

Definition modify_store (f : database -> database) : M unit :=
  let* d := get_store in put_store (f d).

(** *** Queries and updates *)

Definition truthy_str (o : option string) : bool :=
  match o with Some s => negb (String.eqb s "") | None => false end.

(** [Bin.query.filter_by(name=n).first()] *)
Definition find_bin (n : string) (l : list Bin) : option Bin :=
  List.find (fun b => String.eqb (name b) n) l.

(** Writing an object of the session back at commit: the row of that
    name is replaced, a new object becomes a new row.  Names are unique
    in the table. *)
Fixpoint save_bin_rows (b : Bin) (l : list Bin) : list Bin :=
  match l with
  | [] => [b]
  | b' :: l' =>
      if String.eqb (name b') (name b) then b :: l'
      else b' :: save_bin_rows b l'
  end.

Definition save_bin (b : Bin) : M unit :=
  modify_store (fun d =>
    mkDatabase (save_bin_rows b (bins d)) (readings_tbl d) (settings d)
               (action_logs d)).

Definition add_reading (r : Reading) : M unit :=
  modify_store (fun d =>
    mkDatabase (bins d) (readings_tbl d ++ [r]) (settings d) (action_logs d)).

Definition find_setting (k : string) (l : list Setting) : option Setting :=
  List.find (fun s => String.eqb (key s) k) l.

Definition get_setting (k : string) (default : string) : M string :=
  let* d := get_store in
  ret (match find_setting k (settings d) with
       | Some s => value s
       | None => default
       end).

Fixpoint set_setting_rows (k v : string) (l : list Setting) : list Setting :=
  match l with
  | [] => [mkSetting k v]
  | s :: l' =>
      if String.eqb (key s) k then mkSetting (key s) v :: l'
      else s :: set_setting_rows k v l'
  end.

Definition set_setting (k v : string) : M unit :=
  modify_store (fun d =>
    mkDatabase (bins d) (readings_tbl d) (set_setting_rows k v (settings d))
               (action_logs d)).

Definition log_action (e : env) (a : string) (dt : option string) : M unit :=
  modify_store (fun d =>
    mkDatabase (bins d) (readings_tbl d) (settings d)
               (action_logs d ++ [mkActionLog a dt (utcnow e)])).

(** *** [safe_send_sms] *)

Definition twilio_configured (c : config) : bool :=
  forallb truthy_str
    [TWILIO_ACCOUNT_SID c; TWILIO_AUTH_TOKEN c; TWILIO_PHONE_NUMBER c;
     YOUR_PHONE_NUMBER c].

(** What [safe_send_sms] returns. *)
Definition send_outcome (e : env) (bin_name : string) (level : Z)
  : sms_result :=
  if negb (twilio_configured (conf e)) then NotSent "twilio_not_configured"
  else
    match twilio_create e bin_name level with
    | inl sid => Sent sid
    | inr err => NotSent err
    end.

Definition safe_send_sms (e : env) (bin_name : string) (level : Z)
  : M sms_result :=
  fun w =>
    (send_outcome e bin_name level,
     mkWorld (store w) (sms_calls w ++ [(bin_name, level)])).

(** *** Request bodies *)

(** [request.get_json(force=True, silent=True) or {}]: [None] stands for
    a body that is absent or does not parse. *)
Definition body_or_empty (body : option json) : json :=
  match body with
  | Some j => py_or j (JObj [])
  | None => JObj []
  end.

(** Lines 144-150 of [update_level]: the level read from the body. *)
Definition extract_level (e : env) (data : json) : exn + Z :=
  match py_get data "level" with
  | inl ex => inl ex
  | inr lv =>
      match (if is_none lv then
               match py_get data "value" with
               | inl ex => inl ex
               | inr v => inr (py_or v (JInt 0))
               end
             else inr lv) with
      | inl ex => inl ex
      | inr lv' =>
          inr (match py_int (int_str e) lv' with inr z => z | inl _ => 0 end)
      end
  end.

Definition valid_bin (bin_color : string) : bool :=
  existsb (String.eqb bin_color) ["yellow"; "green"; "blue"].

Definition invalid_bin_response : outcome :=
  Response (JObj [("error", JStr "invalid bin")]) 400.

(** [b.last_alert_ts or 0] *)
Definition last_alert_or_0 (t : option Q) : Q :=
  match t with
  | Some q => if Qeq_bool q 0 then 0%Q else q
  | None => 0%Q
  end.

(** *** [update_level] *)

(** [Bin(name=bin_color, latest_level=level)] once inserted: the column
    default fills [last_alert_ts]. *)
Definition new_bin (bin_color : string) (lv : Z) : Bin :=
  mkBin bin_color (Some 0%Q) lv.

Definition set_latest_level (lv : Z) (b : Bin) : Bin :=
  mkBin (name b) (last_alert_ts b) lv.

Definition set_last_alert_ts (t : Q) (b : Bin) : Bin :=
  mkBin (name b) (Some t) (latest_level b).

Definition ALERT_THRESHOLD : Z := 80.

(** The test of line 165. *)
Definition cooldown_elapsed (e : env) (b : Bin) : bool :=
  Qle_bool (inject_Z (ALERT_COOLDOWN_SECONDS (conf e)))
           (time_time e - last_alert_or_0 (last_alert_ts b)).

(** Lines 161-173: the alert decision, returning [alert_sent]. *)
Definition auto_alert (e : env) (bin_color : string) (lv : Z) (b : Bin)
  : M bool :=
  if ALERT_THRESHOLD <=? lv then
    let now_ts := time_time e in
    if cooldown_elapsed e b then
      let* res := safe_send_sms e bin_color lv in
      if res_sent res then
        let* _ := save_bin (set_last_alert_ts now_ts b) in
        let* _ := log_action e "auto_alert_sent"
                    (Some (bin_color +:+ " level=" +:+ str_of_int lv
                           +:+ " sid=" +:+ str_of_opt (res_sid res))) in
        ret true
      else
        let* _ := log_action e "auto_alert_failed"
                    (Some (bin_color +:+ " level=" +:+ str_of_int lv
                           +:+ " error=" +:+ str_of_opt (res_error res))) in
        ret false
    else ret false
  else ret false.

Definition update_level_response (bin_color : string) (lv : Z)
  (alert_sent : bool) : outcome :=
  Response (JObj [("status", JStr "success"); ("bin", JStr bin_color);
                  ("level", JInt lv); ("alert_sent", JBool alert_sent)]) 200.

(** Lines 152-159: the bin is fetched or created, its level set, the
    reading added, and the session committed.  The row and the reading
    reach the store at the commit, which binds the level and raises
    [OverflowError] when it does not fit; the session is then dropped
    with the request. *)
Definition store_level (e : env) (bin_color : string) (lv : Z)
  : M (exn + Bin) :=
  let* d := get_store in
  let b := match find_bin bin_color (bins d) with
           | Some b => b
           | None => new_bin bin_color lv
           end in
  let b := set_latest_level lv b in
  if sqlite_int lv then
    let* _ := add_reading (mkReading bin_color lv (utcnow e)) in
    let* _ := save_bin b in
    ret (inr b)
  else ret (inl OverflowError).

Definition update_level (e : env) (bin_color : string) (body : option json)
  : M outcome :=
  if negb (valid_bin bin_color) then ret invalid_bin_response
  else
    match extract_level e (body_or_empty body) with
    | inl ex => ret (Uncaught ex)
    | inr lv =>
        let* stored := store_level e bin_color lv in
        match stored with
        | inl ex => ret (Uncaught ex)
        | inr b =>
            let* alert_sent := auto_alert e bin_color lv b in
            ret (update_level_response bin_color lv alert_sent)
        end
    end.

(** *** [readings] *)

(** [order_by(Reading.ts.desc())]: insertion into a list that is already
    in descending order of [ts]. *)
Fixpoint insert_desc (r : Reading) (l : list Reading) : list Reading :=
  match l with
  | [] => [r]
  | r' :: l' => if ts r' <=? ts r then r :: l else r' :: insert_desc r l'
  end.

Fixpoint order_by_ts_desc (l : list Reading) : list Reading :=
  match l with
  | [] => []
  | r :: l' => insert_desc r (order_by_ts_desc l')
  end.

(** [.limit(n)]: the limit is bound to the statement, so it must fit;
    SQLite reads a negative limit as no limit. *)
Definition limit (n : Z) (l : list Reading) : exn + list Reading :=
  if sqlite_int n then inr (if n <? 0 then l else firstn (Z.to_nat n) l)
  else inl OverflowError.

Definition filter_by_bin (bin_color : string) (l : list Reading)
  : list Reading :=
  List.filter (fun r => String.eqb (bin_name r) bin_color) l.

(** Line 187, and the [reversed(q)] of line 188. *)
Definition readings_query (bin_color : string) (last_n : Z)
  (tbl : list Reading) : exn + list Reading :=
  limit last_n (order_by_ts_desc (filter_by_bin bin_color tbl)).

Definition readings_rows (bin_color : string) (last_n : Z)
  (tbl : list Reading) : exn + list Reading :=
  match readings_query bin_color last_n tbl with
  | inl ex => inl ex
  | inr q => inr (rev q)
  end.

Definition reading_json (e : env) (r : Reading) : json :=
  JObj [("level", JInt (level r)); ("ts", JStr (isoformat e (ts r)))].

(** [n] is the query argument, when given. *)
Definition readings (e : env) (bin_color : string) (n : option string)
  : M outcome :=
  if negb (valid_bin bin_color) then ret invalid_bin_response
  else
    match (match n with
           | Some s => py_int (int_str e) (JStr s)
           | None => inr 100
           end) with
    | inl ex => ret (Uncaught ex)
    | inr last_n =>
        let* d := get_store in
        match readings_rows bin_color last_n (readings_tbl d) with
        | inl ex => ret (Uncaught ex)
        | inr rows => ret (Response (JArr (map (reading_json e) rows)) 200)
        end
    end.

(** *** [get_config] and [patch_config] *)

Definition get_config : M outcome :=
  let* flag := get_setting "simulator_paused" "false" in
  ret (Response (JObj [("simulator_paused", JBool (String.eqb flag "true"))])
                200).

Definition patch_config_response (flag : string) (changed : list string)
  : outcome :=
  Response (JObj [("status", JStr "ok");
                  ("simulator_paused", JBool (String.eqb flag "true"));
                  ("changed", JArr (map JStr changed))]) 200.

Definition patch_config (e : env) (body : option json) : M outcome :=
  let data := body_or_empty body in
  match py_contains "simulator_paused" data with
  | inl ex => ret (Uncaught ex)
  | inr false =>
      let* flag := get_setting "simulator_paused" "false" in
      ret (patch_config_response flag [])
  | inr true =>
      match py_getitem data "simulator_paused" with
      | inl ex => ret (Uncaught ex)
      | inr v =>
          let val := truthy v in
          let* _ := set_setting "simulator_paused" (lower_of_bool val) in
          let* _ := log_action e "simulator_paused_toggled"
                      (Some ("paused=" +:+ str_of_bool val)) in
          let* flag := get_setting "simulator_paused" "false" in
          ret (patch_config_response flag
                 ["simulator_paused=" +:+ str_of_bool val])
      end
  end.

(** *** [trigger_alert] *)

Definition bin_not_found_response : outcome :=
  Response (JObj [("error", JStr "bin not found")]) 404.

Definition trigger_alert (e : env) (bin_color : string) : M outcome :=
  if negb (valid_bin bin_color) then ret invalid_bin_response
  else
    let* d := get_store in
    match find_bin bin_color (bins d) with
    | None => ret bin_not_found_response
    | Some b =>
        let* res := safe_send_sms e bin_color (latest_level b) in
        if res_sent res then
          let* _ := save_bin (set_last_alert_ts (time_time e) b) in
          let* _ := log_action e "manual_alert_sent"
                      (Some (bin_color +:+ " level="
                             +:+ str_of_int (latest_level b)
                             +:+ " sid=" +:+ str_of_opt (res_sid res))) in
          ret (Response (JObj [("status", JStr "alert_sent");
                               ("sid", json_of_opt (res_sid res))]) 200)
        else
          let* _ := log_action e "manual_alert_failed"
                      (Some (bin_color +:+ " level="
                             +:+ str_of_int (latest_level b)
                             +:+ " error=" +:+ str_of_opt (res_error res))) in
          ret (Response (JObj [("status", JStr "alert_failed");
                               ("error", json_of_opt (res_error res))]) 500)
    end.

(** *** Observations used in the statements *)

(** The audit entries a request added: the log of [w'] beyond that of
    [w], when the former extends the latter. *)
Definition new_actions (w w' : world) : list ActionLog :=
  skipn (length (action_logs (store w))) (action_logs (store w')).

(** The notifier calls a request made. *)
Definition new_sms_calls (w w' : world) : list (string * Z) :=
  skipn (length (sms_calls w)) (sms_calls w').


(** The bin row of a name, and its last alert time as the code reads
    it. *)
Definition bin_of (w : world) (n : string) : option Bin :=
  find_bin n (bins (store w)).

Definition last_alert_of (w : world) (n : string) : Q :=
  match bin_of w n with
  | Some b => last_alert_or_0 (last_alert_ts b)
  | None => 0%Q
  end.

(** The last alert time of a bin as the specification reads it: the
    stored time, and 0 when the bin has no row or the column is unset. *)
Definition stored_last_alert (w : world) (n : string) : Q :=
  match bin_of w n with
  | Some b => match last_alert_ts b with Some t => t | None => 0%Q end
  | None => 0%Q
  end.


(** The pause flag as [get_config] reports it. *)
Definition paused_flag (w : world) : bool :=
  match find_setting "simulator_paused" (settings (store w)) with
  | Some s => String.eqb (value s) "true"
  | None => false
  end.

(** The audit entry of an automatic alert attempt. *)
Definition auto_alert_entry (e : env) (bin : string) (lv : Z) (res : sms_result)
  : ActionLog :=
  if res_sent res then
    mkActionLog "auto_alert_sent"
      (Some (bin +:+ " level=" +:+ str_of_int lv +:+ " sid="
             +:+ str_of_opt (res_sid res))) (utcnow e)
  else
    mkActionLog "auto_alert_failed"
      (Some (bin +:+ " level=" +:+ str_of_int lv +:+ " error="
             +:+ str_of_opt (res_error res))) (utcnow e).

(** The condition under which [update_level] calls the notifier. *)
Definition qualifies (e : env) (lv : Z) (last : Q) : Prop :=
  ALERT_THRESHOLD <= lv
  /\ (inject_Z (ALERT_COOLDOWN_SECONDS (conf e)) <= time_time e - last)%Q.

Definition qualifiesb (e : env) (lv : Z) (last : Q) : bool :=
  (ALERT_THRESHOLD <=? lv)
  && Qle_bool (inject_Z (ALERT_COOLDOWN_SECONDS (conf e)))
              (time_time e - last).

(** The audit entry of a manual alert attempt. *)
Definition manual_alert_entry (e : env) (bin : string) (lv : Z)
  (res : sms_result) : ActionLog :=
  if res_sent res then
    mkActionLog "manual_alert_sent"
      (Some (bin +:+ " level=" +:+ str_of_int lv +:+ " sid="
             +:+ str_of_opt (res_sid res))) (utcnow e)
  else
    mkActionLog "manual_alert_failed"
      (Some (bin +:+ " level=" +:+ str_of_int lv +:+ " error="
             +:+ str_of_opt (res_error res))) (utcnow e).


(** *** [init_bins_if_needed], [get_levels] and [get_actions] *)

(** [Bin(name=name)] once inserted: both column defaults apply. *)
Definition default_bin (n : string) : Bin := mkBin n (Some 0%Q) 0.

Definition BIN_NAMES : list string := ["yellow"; "green"; "blue"].

(** One turn of the loop of [init_bins_if_needed]. *)
Definition init_bin_row (l : list Bin) (n : string) : list Bin :=
  match find_bin n l with
  | Some _ => l
  | None => l ++ [default_bin n]
  end.

Definition init_bins_if_needed : M unit :=
  modify_store (fun d =>
    mkDatabase (fold_left init_bin_row BIN_NAMES (bins d)) (readings_tbl d)
               (settings d) (action_logs d)).

(** [d[k] = v] on a dict: an existing key keeps its place. *)
Fixpoint dict_set (k : string) (v : json) (d : list (string * json))
  : list (string * json) :=
  match d with
  | [] => [(k, v)]
  | (k', v') :: d' =>
      if String.eqb k' k then (k', v) :: d' else (k', v') :: dict_set k v d'
  end.

(** [{b.name: b.latest_level for b in bins}] *)
Definition levels_dict (l : list Bin) : list (string * json) :=
  fold_left (fun d b => dict_set (name b) (JInt (latest_level b)) d) l [].

Definition get_levels : M outcome :=
  let* d := get_store in
  ret (Response (JObj (levels_dict (bins d))) 200).

(** [order_by(ActionLog.ts.desc())] *)
Fixpoint insert_log_desc (a : ActionLog) (l : list ActionLog)
  : list ActionLog :=
  match l with
  | [] => [a]
  | a' :: l' =>
      if log_ts a' <=? log_ts a then a :: l else a' :: insert_log_desc a l'
  end.

Fixpoint order_by_log_ts_desc (l : list ActionLog) : list ActionLog :=
  match l with
  | [] => []
  | a :: l' => insert_log_desc a (order_by_log_ts_desc l')
  end.

Definition limit_logs (n : Z) (l : list ActionLog)
  : exn + list ActionLog :=
  if sqlite_int n then inr (if n <? 0 then l else firstn (Z.to_nat n) l)
  else inl OverflowError.

Definition actions_rows (n : Z) (tbl : list ActionLog)
  : exn + list ActionLog :=
  limit_logs n (order_by_log_ts_desc tbl).

Definition action_json (e : env) (a : ActionLog) : json :=
  JObj [("action", JStr (action_type a)); ("detail", json_of_opt (detail a));
        ("ts", JStr (isoformat e (log_ts a)))].

Definition get_actions (e : env) (n : option string) : M outcome :=
  match (match n with
         | Some s => py_int (int_str e) (JStr s)
         | None => inr 50
         end) with
  | inl ex => ret (Uncaught ex)
  | inr lim =>
      let* d := get_store in
      match actions_rows lim (action_logs d) with
      | inl ex => ret (Uncaught ex)
      | inr rows => ret (Response (JArr (map (action_json e) rows)) 200)
      end
  end.

(** The row [update_level] writes: the level is the coerced one, and the
    last alert time is the current time when an alert went out and the
    bin's own otherwise. *)
Definition updated_bin (e : env) (bin : string) (lv : Z) (sent : bool)
  (w : world) : Bin :=
  mkBin bin
    (if sent then Some (time_time e)
     else match bin_of w bin with
          | Some b0 => last_alert_ts b0
          | None => Some 0%Q
          end)
    lv.

(** Names are unique in the [bins] table, keys in [settings]. *)
Definition unique_bins (w : world) : Prop :=
  List.NoDup (map name (bins (store w))).

Definition unique_settings (w : world) : Prop :=
  List.NoDup (map key (settings (store w))).

(** The row of another bin is what it was. *)
Definition same_bin (w w' : world) (n : string) : Prop :=
  bin_of w' n = bin_of w n.


(** *** Routing *)

(** The requests the routes of the service answer. *)
Inductive request : Type :=
| GetLevels
| UpdateLevel (bin_color : string) (body : option json)
| Readings (bin_color : string) (n : option string)
| GetConfig
| PatchConfig (body : option json)
| GetActions (n : option string)
| TriggerAlert (bin_color : string).

Definition handle (e : env) (r : request) : M outcome :=
  match r with
  | GetLevels => get_levels
  | UpdateLevel bin_color body => update_level e bin_color body
  | Readings bin_color n => readings e bin_color n
  | GetConfig => get_config
  | PatchConfig body => patch_config e body
  | GetActions n => get_actions e n
  | TriggerAlert bin_color => trigger_alert e bin_color
  end.

(** Requests served one after the other, each with the clocks and the
    notifier outcome of its own moment. *)
Fixpoint serve (rs : list (env * request)) (w : world) : world :=
  match rs with
  | [] => w
  | (e, r) :: rs' => serve rs' (snd (handle e r w))
  end.

(** Every bin row and every reading carries one of the three names. *)
Definition valid_names (w : world) : Prop :=
  Forall (fun b => valid_bin (name b) = true) (bins (store w))
  /\ Forall (fun r => valid_bin (bin_name r) = true) (readings_tbl (store w)).

End App.

(** ** The level generator ([sensor_simulator.py]) *)

Module Sim.

Definition P_BIG_JUMP : Q := 12 # 100.
Definition P_SMALL_DECREASE : Q := 12 # 100.
Definition P_EMPTY_WHEN_FULL : Q := 25 # 100.
Definition FULL_COUNT_BEFORE_EMPTY : Z := 2.
Definition OCCASIONAL_EMPTY_PROB : Q := 2 # 100.

Definition Qlt_bool (x y : Q) : bool := negb (Qle_bool y x).

(** The module [random]: a generator state with [random.random()] and
    [random.randint(a, b)], and the ranges their documentation gives. *)
Class RandomSource : Type := {
  rng : Type;
  random : rng -> Q * rng;
  randint : Z -> Z -> rng -> Z * rng;
  random_range : forall g, (0 <= fst (random g))%Q /\ (fst (random g) < 1)%Q;
  randint_range : forall a b g, a <= b -> a <= fst (randint a b g) <= b
}.

(** The two module-level dictionaries. *)
Record state : Type := mkState {
  last_levels : gmap string (option Z);
  full_counts : gmap string Z
}.

(** [last_levels.get(name)] *)
Definition get_prev (name : string) (st : state) : option Z :=
  match last_levels st !! name with
  | Some v => v
  | None => None
  end.

(** [full_counts[name] += 1] *)
Definition incr_count (name : string) (fc : gmap string Z)
  : exn + gmap string Z :=
  match fc !! name with
  | Some c => inr (<[name := c + 1]> fc)
  | None => inl KeyError
  end.

(** Line 58, as a function of the counter after its increment. *)
Definition empty_chance (full_count : Z) : Q :=
  P_EMPTY_WHEN_FULL
  + (15 # 100) * inject_Z (Z.max 0 (full_count - FULL_COUNT_BEFORE_EMPTY)).


Section Generator.
Context {R : RandomSource}.

(** Lines 54-65: the emptying decision, with the counters and the
    generator state it leaves. *)
Definition decide_empty (name : string) (prev : Z) (fc : gmap string Z)
  (g : rng) : exn + (bool * gmap string Z * rng) :=
  if 90 <=? prev then
    match incr_count name fc with
    | inl ex => inl ex
    | inr fc1 =>
        match fc1 !! name with
        | None => inl KeyError
        | Some c =>
            let (u, g1) := random g in
            inr (Qlt_bool u (empty_chance c), fc1, g1)
        end
    end
  else
    let fc1 := <[name := 0]> fc in
    let (u, g1) := random g in
    inr (Qlt_bool u OCCASIONAL_EMPTY_PROB, fc1, g1).

(** Lines 75-84: the event and its delta. *)
Definition draw_delta (g : rng) : Z * rng :=
  let (r, g1) := random g in
  if Qlt_bool r P_BIG_JUMP then randint 10 30 g1
  else if Qlt_bool r (P_BIG_JUMP + P_SMALL_DECREASE) then
    let (x, g2) := randint 2 8 g1 in (- x, g2)
  else randint 1 8 g1.

Definition generate_next_level (name : string) (st : state) (g : rng)
  : exn + (Z * state * rng) :=
  match get_prev name st with
  | None =>
      let (new, g1) := randint 10 35 g in
      inr (new,
           mkState (<[name := Some new]> (last_levels st))
                   (<[name := if 90 <=? new then 1 else 0]> (full_counts st)),
           g1)
  | Some prev =>
      match decide_empty name prev (full_counts st) g with
      | inl ex => inl ex
      | inr (will_empty, fc1, g1) =>
          if will_empty then
            let (new, g2) := randint 0 18 g1 in
            inr (new,
                 mkState (<[name := Some new]> (last_levels st))
                         (<[name := 0]> fc1),
                 g2)
          else
            let (delta, g2) := draw_delta g1 in
            let new := prev + delta in
            let new := Z.max 0 (Z.min 100 new) in
            match (if 90 <=? new then incr_count name fc1
                   else inr (<[name := 0]> fc1)) with
            | inl ex => inl ex
            | inr fc2 =>
                inr (new, mkState (<[name := Some new]> (last_levels st)) fc2,
                     g2)
            end
      end
  end.

End Generator.

(** The states the claims range over for a bin: no previous level, or a
    previous level in [0,100] with a non-negative streak counter. *)
Definition state_ok (name : string) (st : state) : Prop :=
  match get_prev name st with
  | None => True
  | Some prev =>
      0 <= prev <= 100
      /\ exists c, full_counts st !! name = Some c /\ 0 <= c
  end.

(** A concrete source: a linear congruential generator on [Z]. *)
Definition lcg_next (s : Z) : Z := (1103515245 * s + 12345) mod 2147483648.

Definition lcg_random (s : Z) : Q * Z :=
  (lcg_next s # 2147483648, lcg_next s).

Definition lcg_randint (a b : Z) (s : Z) : Z * Z :=
  (a + lcg_next s mod (b - a + 1), lcg_next s).

(** The linear congruential generator is a random source. *)
Definition lcg_source : RandomSource.
Proof.
  refine {| rng := Z; random := lcg_random; randint := lcg_randint |}.
  - intros s. pose proof (Z.mod_pos_bound (1103515245 * s + 12345) 2147483648).
    unfold lcg_random, lcg_next, Qle, Qlt. simpl. lia.
  - intros a b s Hab. unfold lcg_randint. simpl.
    pose proof (Z.mod_pos_bound (lcg_next s) (b - a + 1)). lia.
Defined.

(** The state at import time. *)
Definition initial_state : state :=
  mkState (<["yellow" := None]> (<["green" := None]> (<["blue" := None]> ∅)))
          (<["yellow" := 0]> (<["green" := 0]> (<["blue" := 0]> ∅))).

(** *** The poll of the pause flag and the post of a level *)

Definition API_BASE : string := "http://127.0.0.1:5000/update_level".
Definition CONFIG_POLL_INTERVAL : Q := 4.

(** [fetch_config]: [resp] is what [r.json()] gives for the answer to
    GET /config, [None] when the request or the parsing raises; the new
    value of [_paused] is returned.  [j.get] raises on a value that is
    not a dict, and every exception keeps the flag. *)
Definition fetch_config (resp : option json) (_paused : bool) : bool :=
  match resp with
  | Some (JObj d) =>
      truthy (if dict_mem "simulator_paused" d
              then dict_get "simulator_paused" d
              else JBool false)
  | _ => _paused
  end.

(** The JSON body [post_level] sends. *)
Definition post_payload (level : Z) : json := JObj [("level", JInt level)].

(** [post_level]: [http] is [requests.post], answering with a status
    code and a text or raising with a message. *)
Definition post_level (http : string -> json -> (Z * string) + string)
  (bin_color : string) (level : Z) : bool * option Z * string :=
  match http (API_BASE +:+ "/" +:+ bin_color) (post_payload level) with
  | inl (code, text) => (true, Some code, text)
  | inr err => (false, None, err)
  end.

(** *** The loop of [run_forever] *)

(** An entry of the dict [bins]. *)
Record bin_info : Type := mkBinInfo {
  interval : Z;
  next_update : Q
}.

(** The module state the loop works on: the dict [bins] in its order,
    [_last_config_check], [_paused], the generator's dictionaries, and
    the levels posted so far with the success of each post. *)
Record simulator : Type := mkSimulator {
  sim_bins : list (string * bin_info);
  _last_config_check : Q;
  _paused : bool;
  levels : state;
  posted : list (string * Z * bool)
}.

(** What one turn of the loop reads from outside. *)
Record turn_env : Type := mkTurnEnv {
  now : Q;
  config_response : option json;
  http : string -> json -> (Z * string) + string
}.

(** Lines 122-125: the poll, when it is due. *)
Definition poll_config (t : turn_env) (s : simulator) : simulator :=
  if Qle_bool CONFIG_POLL_INTERVAL (now t - _last_config_check s) then
    mkSimulator (sim_bins s) (now t)
                (fetch_config (config_response t) (_paused s))
                (levels s) (posted s)
  else s.

Section Scheduler.
Context {R : RandomSource}.

(** Lines 132-140: the loop over [bins.items()]. *)
Fixpoint update_due (t : turn_env) (entries : list (string * bin_info))
  (st : state) (g : rng) (log : list (string * Z * bool))
  : exn + (list (string * bin_info) * state * rng * list (string * Z * bool)) :=
  match entries with
  | [] => inr ([], st, g, log)
  | (name, info) :: rest =>
      if Qle_bool (next_update info) (now t) then
        match generate_next_level name st g with
        | inl ex => inl ex
        | inr (lvl, st1, g1) =>
            let '(ok, _, _) := post_level (http t) name lvl in
            let info' :=
              mkBinInfo (interval info) (now t + inject_Z (interval info)) in
            match update_due t rest st1 g1 (log ++ [(name, lvl, ok)]) with
            | inl ex => inl ex
            | inr (rest', st2, g2, log2) =>
                inr ((name, info') :: rest', st2, g2, log2)
            end
        end
      else
        match update_due t rest st g log with
        | inl ex => inl ex
        | inr (rest', st2, g2, log2) => inr ((name, info) :: rest', st2, g2, log2)
        end
  end.

(** One turn of the [while True] loop. *)
Definition turn (t : turn_env) (s : simulator) (g : rng)
  : exn + (simulator * rng) :=
  let s1 := poll_config t s in
  if _paused s1 then inr (s1, g)
  else
    match update_due t (sim_bins s1) (levels s1) g (posted s1) with
    | inl ex => inl ex
    | inr (entries, st, g1, log) =>
        inr (mkSimulator entries (_last_config_check s1) (_paused s1) st log,
             g1)
    end.

(** [k] calls in a row for one bin. *)
Fixpoint generate_levels (name : string) (k : nat) (st : state) (g : rng)
  : exn + (list Z * state * rng) :=
  match k with
  | O => inr ([], st, g)
  | S k' =>
      match generate_next_level name st g with
      | inl ex => inl ex
      | inr (lvl, st1, g1) =>
          match generate_levels name k' st1 g1 with
          | inl ex => inl ex
          | inr (ls, st2, g2) => inr (lvl :: ls, st2, g2)
          end
      end
  end.

End Scheduler.

(** The simulator at start-up, all bins due at time [t0]. *)
Definition initial_simulator (t0 : Q) : simulator :=
  mkSimulator [("yellow", mkBinInfo 6 t0); ("green", mkBinInfo 7 t0);
               ("blue", mkBinInfo 8 t0)]
              0 false initial_state [].


(** The bin is full with a streak counter of at least [m]. *)
Definition full_with_streak (name : string) (st : state) (m : Z) : Prop :=
  exists prev c,
    get_prev name st = Some prev /\ 90 <= prev
    /\ full_counts st !! name = Some c /\ m <= c.



End Sim.

(** ** Sample environments, stores and generator states *)

Import App Sim.


Definition conf_twilio : config :=
  mkConfig (Some "AC1") (Some "tok") (Some "+15550001") (Some "+15550002") 60.


Definition env_sending : env :=
  mkEnv conf_twilio 1000 5 (fun _ _ => inl "SM1") str_of_int int_of_str.

Definition env_failing : env :=
  mkEnv conf_twilio 1000 5 (fun _ _ => inr "timeout") str_of_int int_of_str.

Definition env_five_seconds_later : env :=
  mkEnv conf_twilio 1005 6 (fun _ _ => inl "SM2") str_of_int int_of_str.

Definition env_clock_200 : env :=
  mkEnv conf_twilio 1000 200 (fun _ _ => inl "SM1") str_of_int int_of_str.

Definition empty_world : world := mkWorld (mkDatabase [] [] [] []) [].

Definition seeded_world : world :=
  mkWorld (mkDatabase [mkBin "yellow" (Some 0%Q) 0; mkBin "green" (Some 990%Q) 40;
                       mkBin "blue" None 95]
                      [] [] []) [].

Definition sample_readings : world :=
  mkWorld (mkDatabase []
             [mkReading "yellow" 10 100; mkReading "green" 55 110;
              mkReading "yellow" 20 130; mkReading "yellow" 30 120]
             [] []) [].


Definition long_full_state : state :=
  mkState (<["yellow" := Some 95]> (<["green" := Some 40]> ∅))
          (<["yellow" := 6]> (<["green" := 0]> ∅)).

Definition full_state : state :=
  mkState (<["yellow" := Some 95]> ∅) (<["yellow" := 3]> ∅).



(** * Properties *)

(** ** Rows and tables *)

Section Tables.

Lemma find_bin_name n l b : find_bin n l = Some b -> name b = n.
Proof.
  unfold find_bin. intros H. apply find_some in H as [_ H].
  now apply String.eqb_eq.
Qed.

Lemma find_bin_save b l : find_bin (name b) (save_bin_rows b l) = Some b.
Proof.
  induction l as [|b' l IH]; simpl.
  - now rewrite String.eqb_refl.
  - destruct (String.eqb (name b') (name b)) eqn:E; simpl.
    + now rewrite String.eqb_refl.
    + now rewrite E.
Qed.

Lemma find_bin_save_same n b l :
  name b = n -> find_bin n (save_bin_rows b l) = Some b.
Proof. intros <-. apply find_bin_save. Qed.

Lemma find_setting_set k v l :
  option_map value (find_setting k (set_setting_rows k v l)) = Some v.
Proof.
  induction l as [|s l IH]; simpl.
  - now rewrite String.eqb_refl.
  - destruct (String.eqb (key s) k) eqn:E; simpl; now rewrite E.
Qed.

Lemma find_setting_set_ex k v l :
  exists st, find_setting k (set_setting_rows k v l) = Some st /\ value st = v.
Proof.
  pose proof (find_setting_set k v l) as H.
  destruct (find_setting k (set_setting_rows k v l)) as [st|];
    [|discriminate H].
  exists st. split; [reflexivity|]. now injection H.
Qed.

Lemma skipn_length_app {A} (l l' : list A) : skipn (length l) (l ++ l') = l'.
Proof. induction l; simpl; auto. Qed.

Lemma skipn_length_nil {A} (l : list A) : skipn (length l) l = [].
Proof. induction l; simpl; auto. Qed.

End Tables.

(** ** Ingestion and alerting *)

Section Ingestion.

Variable e : env.

Lemma qualifiesb_spec lv last :
  qualifiesb e lv last = true <-> qualifies e lv last.
Proof.
  unfold qualifiesb, qualifies.
  rewrite andb_true_iff, Z.leb_le, Qle_bool_iff. tauto.
Qed.

Lemma qualifiesb_false lv last :
  qualifiesb e lv last = false <-> ~ qualifies e lv last.
Proof.
  rewrite <- qualifiesb_spec. destruct (qualifiesb e lv last); split; intros;
    congruence.
Qed.

End Ingestion.

Lemma sqlite_int_spec z : sqlite_int z = true <-> - 2 ^ 63 <= z < 2 ^ 63.
Proof. unfold sqlite_int. rewrite andb_true_iff, Z.leb_le, Z.ltb_lt. tauto. Qed.

Lemma sqlite_int_false z : sqlite_int z = false <-> ~ (- 2 ^ 63 <= z < 2 ^ 63).
Proof.
  rewrite <- sqlite_int_spec. destruct (sqlite_int z); split; intros;
    congruence.
Qed.

(** [x or 0] on a stored time reads as the time itself in the test of
    the cooldown: the two differ only where the time is 0. *)
Lemma qualifiesb_last_alert_or_0 e lv t :
  qualifiesb e lv (last_alert_or_0 (Some t)) = qualifiesb e lv t.
Proof.
  unfold qualifiesb, last_alert_or_0. f_equal.
  destruct (Qeq_bool t 0) eqn:E; [|reflexivity].
  apply Qeq_bool_iff in E.
  assert (Heq : (time_time e - 0 == time_time e - t)%Q) by now rewrite E.
  destruct (Qle_bool _ (time_time e - 0)) eqn:A;
    destruct (Qle_bool _ (time_time e - t)) eqn:B; try reflexivity.
  - apply Qle_bool_iff in A. rewrite Heq in A. apply Qle_bool_iff in A.
    congruence.
  - apply Qle_bool_iff in B. rewrite <- Heq in B. apply Qle_bool_iff in B.
    congruence.
Qed.

Lemma qualifiesb_stored e lv w bin :
  qualifiesb e lv (last_alert_of w bin)
  = qualifiesb e lv (stored_last_alert w bin).
Proof.
  unfold last_alert_of, stored_last_alert.
  destruct (bin_of w bin) as [b|]; [|reflexivity].
  destruct (last_alert_ts b) as [t|]; [|reflexivity].
  apply qualifiesb_last_alert_or_0.
Qed.

(** The test of the code, on the words of the specification. *)
Lemma qualifiesb_stored_spec e lv w bin :
  qualifiesb e lv (last_alert_of w bin) = true
  <-> 80 <= lv
      /\ (inject_Z (ALERT_COOLDOWN_SECONDS (conf e))
          <= time_time e - stored_last_alert w bin)%Q.
Proof. rewrite qualifiesb_stored. apply qualifiesb_spec. Qed.

(** ** Rows of the [bins] table *)

Section BinRows.

Lemma find_bin_save_other n b l :
  name b <> n -> find_bin n (save_bin_rows b l) = find_bin n l.
Proof.
  intros Hne. induction l as [|b' l IH]; simpl.
  - destruct (String.eqb_spec (name b) n); [contradiction | reflexivity].
  - destruct (String.eqb_spec (name b') (name b)) as [E|E]; simpl.
    + destruct (String.eqb_spec (name b) n); [contradiction|].
      destruct (String.eqb_spec (name b') n); [congruence | reflexivity].
    + destruct (String.eqb_spec (name b') n); [reflexivity | exact IH].
Qed.

Lemma save_bin_rows_twice b1 b2 l :
  name b1 = name b2 ->
  save_bin_rows b2 (save_bin_rows b1 l) = save_bin_rows b2 l.
Proof.
  intros Hn. induction l as [|b' l IH]; simpl.
  - rewrite Hn, String.eqb_refl. reflexivity.
  - rewrite Hn. destruct (String.eqb (name b') (name b2)) eqn:E; simpl.
    + rewrite Hn, String.eqb_refl. reflexivity.
    + rewrite E, IH. reflexivity.
Qed.

Lemma find_bin_none_notin n l :
  find_bin n l = None -> ~ In n (map name l).
Proof.
  induction l as [|b l IH]; simpl; [tauto|].
  destruct (String.eqb_spec (name b) n); [discriminate|].
  intros H [E|E]; [contradiction | exact (IH H E)].
Qed.

Lemma find_bin_some_in n l b : find_bin n l = Some b -> In n (map name l).
Proof.
  induction l as [|b' l IH]; simpl; [discriminate|].
  destruct (String.eqb_spec (name b') n); [now left | right; auto].
Qed.

Lemma save_bin_rows_names b l :
  map name (save_bin_rows b l)
  = match find_bin (name b) l with
    | Some _ => map name l
    | None => map name l ++ [name b]
    end.
Proof.
  induction l as [|b' l IH]; simpl; [reflexivity|].
  destruct (String.eqb_spec (name b') (name b)) as [E|E]; simpl.
  - now rewrite E.
  - rewrite IH. now destruct (find_bin (name b) l).
Qed.

Lemma NoDup_snoc {A} (l : list A) x :
  List.NoDup l -> ~ In x l -> List.NoDup (l ++ [x]).
Proof.
  intros Hl Hx. apply List.NoDup_rev in Hl.
  rewrite <- (rev_involutive (l ++ [x])).
  apply List.NoDup_rev. rewrite rev_app_distr. simpl.
  constructor; [|exact Hl]. now rewrite <- in_rev.
Qed.

Lemma save_bin_rows_unique b l :
  List.NoDup (map name l) -> List.NoDup (map name (save_bin_rows b l)).
Proof.
  intros H. rewrite save_bin_rows_names.
  destruct (find_bin (name b) l) eqn:F; [exact H|].
  apply NoDup_snoc; [exact H | now apply find_bin_none_notin].
Qed.

End BinRows.

(** ** What one [update_level] request does *)

Lemma update_level_effect e bin body w lv :
  valid_bin bin = true ->
  extract_level e (body_or_empty body) = inr lv ->
  sqlite_int lv = true ->
  exists w',
    update_level e bin body w
    = (update_level_response bin lv
         (qualifiesb e lv (last_alert_of w bin)
          && res_sent (send_outcome e bin lv)), w')
    /\ bins (store w')
       = save_bin_rows
           (updated_bin e bin lv
              (qualifiesb e lv (last_alert_of w bin)
               && res_sent (send_outcome e bin lv)) w)
           (bins (store w))
    /\ readings_tbl (store w')
       = readings_tbl (store w) ++ [mkReading bin lv (utcnow e)]
    /\ settings (store w') = settings (store w)
    /\ action_logs (store w')
       = action_logs (store w)
         ++ (if qualifiesb e lv (last_alert_of w bin)
             then [auto_alert_entry e bin lv (send_outcome e bin lv)]
             else [])
    /\ sms_calls w'
       = sms_calls w
         ++ (if qualifiesb e lv (last_alert_of w bin) then [(bin, lv)] else []).
Proof.
  intros Hv Hx Hfit. unfold update_level. rewrite Hv, Hx.
  unfold store_level, auto_alert, updated_bin, last_alert_of, bin_of,
    qualifiesb, cooldown_elapsed, auto_alert_entry.
  cbv [negb bind get_store add_reading save_bin log_action safe_send_sms
       modify_store put_store ret].
  rewrite Hfit. simpl.
  assert (Hshape : forall b0, name b0 = bin ->
            (forall t, save_bin_rows (set_last_alert_ts t (set_latest_level lv b0))
                         (save_bin_rows (set_latest_level lv b0) (bins (store w)))
                       = save_bin_rows (mkBin bin (Some t) lv) (bins (store w)))
            /\ save_bin_rows (set_latest_level lv b0) (bins (store w))
               = save_bin_rows (mkBin bin (last_alert_ts b0) lv)
                   (bins (store w))).
  { intros b0 Hn. split.
    - intros t. rewrite save_bin_rows_twice by reflexivity.
      unfold set_last_alert_ts, set_latest_level. simpl. now rewrite Hn.
    - unfold set_latest_level. now rewrite Hn. }
  destruct (find_bin bin (bins (store w))) as [b0|] eqn:F; simpl.
  - destruct (Hshape b0 (find_bin_name _ _ _ F)) as [H2 H1].
    destruct (ALERT_THRESHOLD <=? lv); simpl;
      [destruct (Qle_bool (inject_Z (ALERT_COOLDOWN_SECONDS (conf e)))
                   (time_time e - last_alert_or_0 (last_alert_ts b0))); simpl;
       [destruct (res_sent (send_outcome e bin lv)); simpl|]|];
      eexists; (split; [reflexivity|]); simpl;
      rewrite ?app_nil_r, ?H2, ?H1; repeat split; reflexivity.
  - destruct (Hshape (new_bin bin lv) eq_refl) as [H2 H1].
    destruct (ALERT_THRESHOLD <=? lv); simpl;
      [destruct (Qle_bool (inject_Z (ALERT_COOLDOWN_SECONDS (conf e)))
                   (time_time e - 0)); simpl;
       [destruct (res_sent (send_outcome e bin lv)); simpl|]|];
      eexists; (split; [reflexivity|]); simpl;
      rewrite ?app_nil_r, ?H2, ?H1; repeat split; reflexivity.
Qed.

Lemma update_level_bin_row e bin body w lv :
  valid_bin bin = true ->
  extract_level e (body_or_empty body) = inr lv ->
  sqlite_int lv = true ->
  bin_of (snd (update_level e bin body w)) bin
  = Some (updated_bin e bin lv
            (qualifiesb e lv (last_alert_of w bin)
             && res_sent (send_outcome e bin lv)) w).
Proof.
  intros Hv Hx Hfit.
  destruct (update_level_effect e bin body w lv Hv Hx Hfit) as (w' & -> & Hb & _).
  unfold bin_of. simpl snd. rewrite Hb. now apply find_bin_save_same.
Qed.

Lemma update_level_invalid e bin body w :
  valid_bin bin = false -> update_level e bin body w = (invalid_bin_response, w).
Proof. intros Hv. unfold update_level. now rewrite Hv. Qed.

Lemma update_level_uncaught e bin body w ex :
  valid_bin bin = true ->
  extract_level e (body_or_empty body) = inl ex ->
  update_level e bin body w = (Uncaught ex, w).
Proof. intros Hv Hx. unfold update_level. now rewrite Hv, Hx. Qed.

(** A level that SQLite does not accept: the commit raises, nothing is
    stored and the alert block is not reached. *)
Lemma update_level_overflow e bin body w lv :
  valid_bin bin = true ->
  extract_level e (body_or_empty body) = inr lv ->
  sqlite_int lv = false ->
  update_level e bin body w = (Uncaught OverflowError, w).
Proof.
  intros Hv Hx Hfit. unfold update_level. rewrite Hv, Hx.
  unfold store_level. cbv [negb bind get_store ret]. rewrite Hfit.
  reflexivity.
Qed.

Lemma update_level_calls e bin body w lv :
  valid_bin bin = true ->
  extract_level e (body_or_empty body) = inr lv ->
  sqlite_int lv = true ->
  new_sms_calls w (snd (update_level e bin body w))
  = (if qualifiesb e lv (last_alert_of w bin) then [(bin, lv)] else [])
  /\ fst (update_level e bin body w)
     = update_level_response bin lv
         (qualifiesb e lv (last_alert_of w bin)
          && res_sent (send_outcome e bin lv)).
Proof.
  intros Hv Hx Hfit.
  destruct (update_level_effect e bin body w lv Hv Hx Hfit)
    as (w' & -> & _ & _ & _ & _ & Hc).
  simpl. split; [|reflexivity]. unfold new_sms_calls. rewrite Hc.
  apply skipn_length_app.
Qed.

Lemma last_alert_of_unsent e bin lv w :
  last_alert_or_0 (last_alert_ts (updated_bin e bin lv false w))
  = last_alert_of w bin.
Proof.
  unfold updated_bin, last_alert_of. simpl.
  now destruct (bin_of w bin).
Qed.

Lemma stored_last_alert_after_update e bin body w lv :
  valid_bin bin = true ->
  extract_level e (body_or_empty body) = inr lv ->
  sqlite_int lv = true ->
  stored_last_alert (snd (update_level e bin body w)) bin
  = if qualifiesb e lv (last_alert_of w bin)
       && res_sent (send_outcome e bin lv)
    then time_time e
    else stored_last_alert w bin.
Proof.
  intros Hv Hx Hfit. unfold stored_last_alert at 1.
  rewrite (update_level_bin_row e bin body w lv Hv Hx Hfit).
  unfold updated_bin, stored_last_alert. simpl.
  destruct (qualifiesb e lv (last_alert_of w bin)
            && res_sent (send_outcome e bin lv)); [reflexivity|].
  now destruct (bin_of w bin).
Qed.

(** A request either leaves the world as it was (refused name, body
    without [get], level that does not fit) or stores a level. *)
Lemma update_level_unchanged_or_stored e bin body w :
  snd (update_level e bin body w) = w
  \/ exists lv,
       valid_bin bin = true
       /\ extract_level e (body_or_empty body) = inr lv
       /\ sqlite_int lv = true.
Proof.
  destruct (valid_bin bin) eqn:Hv;
    [|left; now rewrite (update_level_invalid e bin body w Hv)].
  destruct (extract_level e (body_or_empty body)) as [ex|lv] eqn:Hx;
    [left; now rewrite (update_level_uncaught e bin body w ex Hv Hx)|].
  destruct (sqlite_int lv) eqn:Hfit;
    [|left; now rewrite (update_level_overflow e bin body w lv Hv Hx Hfit)].
  right. eauto.
Qed.

(** After [update_level] the bin has a row holding the level. *)
Lemma update_level_creates_row e bin body w lv :
  valid_bin bin = true ->
  extract_level e (body_or_empty body) = inr lv ->
  sqlite_int lv = true ->
  exists alert_sent w',
    update_level e bin body w = (update_level_response bin lv alert_sent, w')
    /\ option_map latest_level (bin_of w' bin) = Some lv.
Proof.
  intros Hv Hx Hfit.
  pose proof (update_level_bin_row e bin body w lv Hv Hx Hfit) as Hrow.
  destruct (update_level_effect e bin body w lv Hv Hx Hfit) as (w' & Hrun & _).
  rewrite Hrun in Hrow. simpl snd in Hrow.
  eexists _, w'. split; [exact Hrun|]. now rewrite Hrow.
Qed.

(** ** C1: the level that [update_level] records *)




(** ** C2: when the notifier is called *)




(** ** C3: a qualifying update whose send fails *)



(** ** C4 and C10: the manual trigger *)

(** C4: on a valid bin that has a row, [trigger_alert] calls the
    notifier once with the stored level, whatever that level and the
    last alert time are; when the send succeeds the last alert time
    becomes the current time and "manual_alert_sent" is audited, when it
    fails the last alert time keeps its value and "manual_alert_failed"
    is audited. *)
Theorem trigger_alert_always_sends e bin w b :
  valid_bin bin = true ->
  bin_of w bin = Some b ->
  exists r w',
    trigger_alert e bin w = (r, w')
    /\ new_sms_calls w w' = [(bin, latest_level b)]
    /\ new_actions w w'
       = [manual_alert_entry e bin (latest_level b)
            (send_outcome e bin (latest_level b))]
    /\ (res_sent (send_outcome e bin (latest_level b)) = true ->
        option_map last_alert_ts (bin_of w' bin) = Some (Some (time_time e))
        /\ map action_type (new_actions w w') = ["manual_alert_sent"])
    /\ (res_sent (send_outcome e bin (latest_level b)) = false ->
        option_map last_alert_ts (bin_of w' bin) = Some (last_alert_ts b)
        /\ map action_type (new_actions w w') = ["manual_alert_failed"]).
Proof.
  intros Hv Hb. unfold trigger_alert. rewrite Hv.
  unfold bin_of in Hb.
  cbv [negb bind get_store ret]. rewrite Hb.
  cbv [safe_send_sms save_bin log_action modify_store bind get_store
       put_store ret manual_alert_entry new_sms_calls new_actions bin_of].
  pose proof (find_bin_name _ _ _ Hb) as Hn.
  destruct (res_sent (send_outcome e bin (latest_level b))) eqn:S; simpl;
    eexists _, _; (split; [reflexivity|]); simpl;
    rewrite !skipn_length_app; repeat split; try discriminate; auto.
  - rewrite find_bin_save_same by exact Hn. reflexivity.
  - rewrite Hb. reflexivity.
Qed.

Lemma trigger_alert_always_sends_witness :
  valid_bin "green" = true
  /\ bin_of seeded_world "green" = Some (mkBin "green" (Some 990%Q) 40)
  /\ exists r w',
       trigger_alert env_sending "green" seeded_world = (r, w')
       /\ new_sms_calls seeded_world w' = [("green", 40)]
       /\ new_actions seeded_world w'
          = [manual_alert_entry env_sending "green" 40
               (send_outcome env_sending "green" 40)]
       /\ (res_sent (send_outcome env_sending "green" 40) = true ->
           option_map last_alert_ts (bin_of w' "green")
           = Some (Some (time_time env_sending))
           /\ map action_type (new_actions seeded_world w')
              = ["manual_alert_sent"])
       /\ (res_sent (send_outcome env_sending "green" 40) = false ->
           option_map last_alert_ts (bin_of w' "green") = Some (Some 990%Q)
           /\ map action_type (new_actions seeded_world w')
              = ["manual_alert_failed"]).
Proof.
  split; [reflexivity|]. split; [reflexivity|].
  apply (trigger_alert_always_sends env_sending "green" seeded_world
           (mkBin "green" (Some 990%Q) 40)); reflexivity.
Defined.

(** C10: on a valid bin that has no row, [trigger_alert] answers
    "bin not found" with status 404 and leaves the world as it was: no
    send, no audit entry, no bin created; [update_level] on the same
    world, with a level that the store accepts, does create the row. *)
Theorem trigger_alert_missing_bin e bin w :
  valid_bin bin = true ->
  bin_of w bin = None ->
  trigger_alert e bin w
  = (Response (JObj [("error", JStr "bin not found")]) 404, w)
  /\ new_sms_calls w (snd (trigger_alert e bin w)) = []
  /\ new_actions w (snd (trigger_alert e bin w)) = []
  /\ bin_of (snd (trigger_alert e bin w)) bin = None
  /\ (forall body lv,
        extract_level e (body_or_empty body) = inr lv ->
        - 2 ^ 63 <= lv < 2 ^ 63 ->
        option_map latest_level (bin_of (snd (update_level e bin body w)) bin)
        = Some lv).
Proof.
  intros Hv Hb.
  assert (Ht : trigger_alert e bin w
               = (Response (JObj [("error", JStr "bin not found")]) 404, w)).
  { unfold trigger_alert. rewrite Hv.
    unfold bin_of in Hb. cbv [negb bind get_store ret]. rewrite Hb.
    reflexivity. }
  rewrite Ht. simpl snd. split; [reflexivity|].
  unfold new_sms_calls, new_actions. rewrite !skipn_length_nil.
  repeat split; auto.
  intros body lv Hx Hfit. apply sqlite_int_spec in Hfit.
  destruct (update_level_creates_row e bin body w lv Hv Hx Hfit)
    as (a & w' & -> & Hl). exact Hl.
Qed.

Lemma trigger_alert_missing_bin_witness :
  valid_bin "yellow" = true
  /\ bin_of empty_world "yellow" = None
  /\ trigger_alert env_sending "yellow" empty_world
     = (Response (JObj [("error", JStr "bin not found")]) 404, empty_world)
  /\ new_sms_calls empty_world
       (snd (trigger_alert env_sending "yellow" empty_world)) = []
  /\ new_actions empty_world
       (snd (trigger_alert env_sending "yellow" empty_world)) = []
  /\ bin_of (snd (trigger_alert env_sending "yellow" empty_world)) "yellow"
     = None
  /\ (forall body lv,
        extract_level env_sending (body_or_empty body) = inr lv ->
        - 2 ^ 63 <= lv < 2 ^ 63 ->
        option_map latest_level
          (bin_of (snd (update_level env_sending "yellow" body empty_world))
             "yellow")
        = Some lv).
Proof.
  split; [reflexivity|]. split; [reflexivity|].
  apply (trigger_alert_missing_bin env_sending "yellow" empty_world);
    reflexivity.
Defined.

(** ** C8: bodies without a usable level *)

(** The lenient default where the code reaches it: an absent or
    unparseable body, and an object whose "level" is missing with no
    truthy "value", or is not coercible, give level 0. *)
Lemma extract_level_absent_body e :
  extract_level e (body_or_empty None) = inr 0.
Proof. reflexivity. Qed.

Lemma extract_level_object_default e d :
  (dict_get "level" d = JNull
   /\ (truthy (dict_get "value" d) = false
       \/ exists ex, py_int (int_str e) (dict_get "value" d) = inl ex))
  \/ (exists ex, py_int (int_str e) (dict_get "level" d) = inl ex
      /\ dict_get "level" d <> JNull) ->
  extract_level e (body_or_empty (Some (JObj d))) = inr 0.
Proof.
  intros H.
  assert (Hd : body_or_empty (Some (JObj d)) = JObj d).
  { unfold body_or_empty, py_or. now destruct d. }
  rewrite Hd. unfold extract_level, py_get.
  destruct H as [[Hl [Hv | [ex Hv]]] | [ex [Hl Hn]]].
  - rewrite Hl. simpl. unfold py_or. now rewrite Hv.
  - rewrite Hl. simpl. unfold py_or.
    destruct (truthy (dict_get "value" d)); [now rewrite Hv | reflexivity].
  - destruct (dict_get "level" d) eqn:E; try congruence; simpl;
      simpl in Hl; try reflexivity; try discriminate Hl.
    + destruct f; try reflexivity; discriminate Hl.
    + destruct (int_str e s); [discriminate Hl | reflexivity].
Qed.

(** C8, on the code: a body that is a non-empty JSON array is not
    replaced by the empty dict, [data.get] raises, and the request ends
    in an uncaught exception instead of a level of 0; nothing is
    stored. *)
Theorem update_level_array_body_raises e w :
  update_level e "yellow" (Some (JArr [JInt 1])) w
  = (Uncaught AttributeError, w).
Proof. reflexivity. Qed.

(** ** C9: the pause flag *)

(** C9: for a body that is an object with the key "simulator_paused",
    the flag stored, echoed, and read back by [get_config] is the Python
    truthiness of the value: true for every non-empty string (the
    string "false" too) and every non-zero number, false for [false],
    0, [null] and the empty string. *)
Theorem patch_config_stores_truthiness e d w :
  dict_mem "simulator_paused" d = true ->
  (exists w',
     patch_config e (Some (JObj d)) w
     = (Response
          (JObj [("status", JStr "ok");
                 ("simulator_paused",
                  JBool (truthy (dict_get "simulator_paused" d)));
                 ("changed",
                  JArr [JStr ("simulator_paused="
                              +:+ str_of_bool
                                    (truthy (dict_get "simulator_paused" d)))])])
          200, w')
     /\ paused_flag w' = truthy (dict_get "simulator_paused" d)
     /\ fst (get_config w')
        = Response (JObj [("simulator_paused",
                           JBool (truthy (dict_get "simulator_paused" d)))])
                   200)
  /\ (forall s, s <> "" -> truthy (JStr s) = true)
  /\ truthy (JStr "false") = true
  /\ (forall z, z <> 0 -> truthy (JInt z) = true)
  /\ (forall q, ~ (q == 0)%Q -> truthy (JFloat (FFinite q)) = true)
  /\ truthy (JBool false) = false
  /\ truthy (JInt 0) = false
  /\ truthy (JFloat (FFinite 0)) = false
  /\ truthy JNull = false
  /\ truthy (JStr "") = false.
Proof.
  intros Hm. split.
  - assert (Hd : body_or_empty (Some (JObj d)) = JObj d).
    { unfold body_or_empty, py_or. now destruct d. }
    unfold patch_config. rewrite Hd. unfold py_contains, py_getitem.
    rewrite Hm.
    set (val := truthy (dict_get "simulator_paused" d)).
    cbv [bind set_setting log_action get_setting modify_store get_store
         put_store ret get_config paused_flag].
    simpl.
    assert (Hval : String.eqb (lower_of_bool val) "true" = val)
      by now destruct val.
    destruct (find_setting_set_ex "simulator_paused" (lower_of_bool val)
                (settings (store w))) as (st & Hst & Hv).
    rewrite Hst. unfold patch_config_response. rewrite Hv, Hval.
    eexists. split; [reflexivity|]. simpl. rewrite Hst, Hv, Hval.
    split; reflexivity.
  - repeat split; try reflexivity.
    + intros s Hs. simpl.
      destruct (String.eqb_spec s ""); [congruence | reflexivity].
    + intros z Hz. simpl.
      destruct (Z.eqb_spec z 0); [congruence | reflexivity].
    + intros q Hq. simpl. destruct (Qeq_bool q 0) eqn:E; [|reflexivity].
      apply Qeq_bool_iff in E. contradiction.
Qed.

Lemma patch_config_stores_truthiness_witness :
  dict_mem "simulator_paused" [("simulator_paused", JStr "false")] = true
  /\ exists w',
       patch_config env_sending
         (Some (JObj [("simulator_paused", JStr "false")])) empty_world
       = (Response
            (JObj [("status", JStr "ok");
                   ("simulator_paused", JBool true);
                   ("changed", JArr [JStr "simulator_paused=True"])])
            200, w')
       /\ paused_flag w' = true.
Proof.
  split; [reflexivity|].
  destruct (patch_config_stores_truthiness env_sending
              [("simulator_paused", JStr "false")] empty_world eq_refl)
    as [(w' & Hp & Hf & _) _].
  exists w'. split; [exact Hp | exact Hf].
Defined.

(** ** C7: the readings query *)

Section SortedLists.

Context {A : Type}.





End SortedLists.










(** ** The generator *)

(** ** C5: the range of generated levels *)

Section GeneratorRange.

Context {R : RandomSource}.

Lemma decide_empty_run name prev fc g c :
  fc !! name = Some c -> 0 <= c ->
  exists b fc1 g1 c1,
    decide_empty name prev fc g = inr (b, fc1, g1)
    /\ fc1 !! name = Some c1 /\ 0 <= c1.
Proof.
  intros Hc Hpos. unfold decide_empty, incr_count.
  destruct (90 <=? prev).
  - rewrite Hc, lookup_insert_eq. destruct (random g) as [u g1].
    eexists _, _, _, (c + 1). split; [reflexivity|].
    rewrite lookup_insert_eq. split; [reflexivity | lia].
  - destruct (random g) as [u g1].
    eexists _, _, _, 0. split; [reflexivity|].
    rewrite lookup_insert_eq. split; [reflexivity | lia].
Qed.

Lemma draw_delta_range g : -8 <= fst (draw_delta g) <= 30.
Proof.
  unfold draw_delta. destruct (random g) as [r g1].
  destruct (Qlt_bool r P_BIG_JUMP).
  - pose proof (randint_range 10 30 g1). lia.
  - destruct (Qlt_bool r (P_BIG_JUMP + P_SMALL_DECREASE)).
    + pose proof (randint_range 2 8 g1).
      destruct (randint 2 8 g1) as [x g2]. simpl in *. lia.
    + pose proof (randint_range 1 8 g1). lia.
Qed.

Lemma get_prev_insert name v ll fc :
  get_prev name (mkState (<[name := v]> ll) fc) = v.
Proof. unfold get_prev. simpl. now rewrite lookup_insert_eq. Qed.

(** C5: from a state in which the bin has no previous level, or one in
    [0,100] with a non-negative streak counter, and for every random
    source, [generate_next_level] returns a level in [0,100] and leaves
    such a state again with that level as the previous one: a first
    level lies in [10,35], a level after an emptying in [0,18], and any
    other is the previous level plus the delta drawn, clamped to
    [0,100]. *)
Theorem generate_next_level_in_range name st g :
  state_ok name st ->
  exists new st' g',
    generate_next_level name st g = inr (new, st', g')
    /\ 0 <= new <= 100
    /\ get_prev name st' = Some new
    /\ state_ok name st'
    /\ (get_prev name st = None -> 10 <= new <= 35)
    /\ (forall prev fc1 g1,
          get_prev name st = Some prev ->
          decide_empty name prev (full_counts st) g = inr (true, fc1, g1) ->
          0 <= new <= 18)
    /\ (forall prev fc1 g1,
          get_prev name st = Some prev ->
          decide_empty name prev (full_counts st) g = inr (false, fc1, g1) ->
          new = Z.max 0 (Z.min 100 (prev + fst (draw_delta g1)))).
Proof.
  unfold state_ok, generate_next_level.
  destruct (get_prev name st) as [prev|] eqn:Hprev.
  - intros (Hrange & c & Hc & Hpos).
    destruct (decide_empty_run name prev (full_counts st) g c Hc Hpos)
      as (will_empty & fc1 & g1 & c1 & Hd & Hc1 & Hpos1).
    rewrite Hd. destruct will_empty.
    + pose proof (randint_range 0 18 g1 ltac:(lia)) as Hnew.
      destruct (randint 0 18 g1) as [new g2]. simpl in Hnew.
      eexists _, _, _. split; [reflexivity|].
      rewrite get_prev_insert. simpl.
      split; [lia|]. split; [reflexivity|].
      split; [split; [lia|]; exists 0; rewrite lookup_insert_eq;
              split; [reflexivity | lia]|].
      split; [discriminate|]. split.
      * intros; lia.
      * intros p f g' [= <-] Hd'. rewrite Hd in Hd'. discriminate Hd'.
    + destruct (draw_delta g1) as [delta g2] eqn:Hdelta.
      set (new := Z.max 0 (Z.min 100 (prev + delta))).
      assert (Hnew : 0 <= new <= 100) by (unfold new; lia).
      assert (Hfc : exists fc2 c2,
                 (if 90 <=? new then incr_count name fc1
                  else inr (<[name := 0]> fc1)) = inr fc2
                 /\ fc2 !! name = Some c2 /\ 0 <= c2).
      { unfold incr_count. destruct (90 <=? new).
        - rewrite Hc1. eexists _, (c1 + 1). split; [reflexivity|].
          rewrite lookup_insert_eq. split; [reflexivity | lia].
        - eexists _, 0. split; [reflexivity|].
          rewrite lookup_insert_eq. split; [reflexivity | lia]. }
      destruct Hfc as (fc2 & c2 & Hfc & Hc2 & Hpos2). rewrite Hfc.
      eexists _, _, _. split; [reflexivity|].
      rewrite get_prev_insert. simpl.
      split; [lia|]. split; [reflexivity|].
      split; [split; [lia|]; exists c2; split; [exact Hc2 | lia]|].
      split; [discriminate|]. split.
      * intros p f g' [= <-] Hd'. rewrite Hd in Hd'. discriminate Hd'.
      * intros p f g' [= <-] Hd'. rewrite Hd in Hd'.
        injection Hd' as <- <-. rewrite Hdelta. reflexivity.
  - intros _.
    pose proof (randint_range 10 35 g ltac:(lia)) as Hnew.
    destruct (randint 10 35 g) as [new g1]. simpl in Hnew.
    eexists _, _, _. split; [reflexivity|].
    rewrite get_prev_insert. simpl.
    split; [lia|]. split; [reflexivity|]. split.
    { split; [lia|].
      exists (if 90 <=? new then 1 else 0). rewrite lookup_insert_eq.
      split; [reflexivity | destruct (90 <=? new); lia]. }
    split; [intros; lia|]. split; discriminate.
Qed.

End GeneratorRange.

Lemma generate_next_level_in_range_witness :
  state_ok "yellow" full_state
  /\ exists new st' g',
       @generate_next_level lcg_source "yellow" full_state 7
       = inr (new, st', g')
       /\ 0 <= new <= 100
       /\ get_prev "yellow" st' = Some new.
Proof.
  assert (Hok : state_ok "yellow" full_state).
  { unfold state_ok, full_state. rewrite get_prev_insert. simpl.
    split; [lia|]. exists 3. rewrite lookup_insert_eq.
    split; [reflexivity | lia]. }
  split; [exact Hok|].
  destruct (@generate_next_level_in_range lcg_source "yellow" full_state 7 Hok)
    as (new & st' & g' & Hrun & Hrange & Hprev & _).
  exists new, st', g'. auto.
Defined.

(** ** Runs on concrete inputs *)

Example int_of_str_accepts :
  int_of_str "42" = Some 42 /\ int_of_str "  -17 " = Some (-17)
  /\ int_of_str "1_000" = Some 1000 /\ int_of_str "+007" = Some 7.
Proof. repeat split; reflexivity. Qed.

Example int_of_str_rejects :
  int_of_str "abc" = None /\ int_of_str "" = None /\ int_of_str "1__0" = None
  /\ int_of_str "7_" = None /\ int_of_str "_7" = None
  /\ int_of_str "3.5" = None /\ int_of_str "- 3" = None
  /\ int_of_str (String (ascii_of_nat 28) "85") = None.
Proof. repeat split; reflexivity. Qed.

Example py_int_truncates :
  py_int int_of_str (JFloat (FFinite (-7 # 2))) = inr (-3)
  /\ py_int int_of_str (JFloat (FFinite (7 # 2))) = inr 3
  /\ py_int int_of_str (JBool true) = inr 1.
Proof. repeat split; reflexivity. Qed.

Example extract_level_cases :
  extract_level env_sending (body_or_empty (Some (JObj [("level", JStr "85")]))) = inr 85
  /\ extract_level env_sending (body_or_empty (Some (JObj [("value", JInt 40)]))) = inr 40
  /\ extract_level env_sending (body_or_empty (Some (JObj [("level", JStr "full")])))
     = inr 0
  /\ extract_level env_sending (body_or_empty (Some (JObj [("level", JArr [])]))) = inr 0
  /\ extract_level env_sending (body_or_empty (Some (JInt 0))) = inr 0
  /\ extract_level env_sending (body_or_empty (Some (JStr "85"))) = inl AttributeError.
Proof. repeat split; reflexivity. Qed.

(** The example of the specification: a level of 85 for a bin whose last
    alert is long past sends one alert; the same update five seconds
    later, within the cooldown of 60 seconds, sends none. *)
Example update_level_cooldown_run :
  let body := Some (JObj [("level", JInt 85)]) in
  let later :=
    mkEnv conf_twilio 1005 6 (fun _ _ => inl "SM2") str_of_int int_of_str in
  let (r1, w1) := update_level env_sending "yellow" body seeded_world in
  let (r2, w2) := update_level later "yellow" body w1 in
  r1 = update_level_response "yellow" 85 true
  /\ r2 = update_level_response "yellow" 85 false
  /\ sms_calls w2 = [("yellow", 85)]
  /\ map action_type (action_logs (store w2)) = ["auto_alert_sent"]
  /\ map level (readings_tbl (store w2)) = [85; 85].
Proof. vm_compute. repeat split; reflexivity. Qed.

(** After a failed send the next qualifying update tries again. *)
Example update_level_retry_run :
  let body := Some (JObj [("level", JInt 90)]) in
  let (r1, w1) := update_level env_failing "yellow" body seeded_world in
  let (r2, w2) := update_level env_sending "yellow" body w1 in
  r1 = update_level_response "yellow" 90 false
  /\ r2 = update_level_response "yellow" 90 true
  /\ sms_calls w2 = [("yellow", 90); ("yellow", 90)]
  /\ map action_type (action_logs (store w2))
     = ["auto_alert_failed"; "auto_alert_sent"].
Proof. vm_compute. repeat split; reflexivity. Qed.

Example empty_chance_values :
  (empty_chance 1 == 1 # 4)%Q /\ (empty_chance 2 == 1 # 4)%Q
  /\ (empty_chance 3 == 2 # 5)%Q /\ (empty_chance 4 == 11 # 20)%Q.
Proof. repeat split; reflexivity. Qed.

Example generate_first_level :
  exists new st' g',
    @generate_next_level lcg_source "yellow" initial_state 1
    = inr (new, st', g')
    /\ 10 <= new <= 35.
Proof.
  unfold generate_next_level.
  replace (get_prev "yellow" initial_state) with (@None Z) by reflexivity.
  eexists _, _, _. split; [reflexivity|]. vm_compute.
  split; discriminate.
Qed.

(** * Further properties of the service *)

(** X1: a bin name other than the three known ones is refused with
    status 400 by [update_level], [readings] and [trigger_alert] alike,
    and the request changes nothing: no row, no reading, no audit entry,
    no send. *)
Theorem unknown_bin_rejected e bin body n w :
  bin <> "yellow" -> bin <> "green" -> bin <> "blue" ->
  update_level e bin body w
  = (Response (JObj [("error", JStr "invalid bin")]) 400, w)
  /\ readings e bin n w
     = (Response (JObj [("error", JStr "invalid bin")]) 400, w)
  /\ trigger_alert e bin w
     = (Response (JObj [("error", JStr "invalid bin")]) 400, w).
Proof.
  intros Hy Hg Hb.
  assert (Hv : valid_bin bin = false).
  { unfold valid_bin. simpl.
    destruct (String.eqb_spec bin "yellow"); [contradiction|].
    destruct (String.eqb_spec bin "green"); [contradiction|].
    destruct (String.eqb_spec bin "blue"); [contradiction | reflexivity]. }
  unfold update_level, readings, trigger_alert. rewrite Hv.
  repeat split; reflexivity.
Qed.

Lemma unknown_bin_rejected_witness :
  update_level env_sending "Yellow" (Some (JObj [("level", JInt 95)]))
    seeded_world
  = (Response (JObj [("error", JStr "invalid bin")]) 400, seeded_world)
  /\ readings env_sending "Yellow" (Some "5") seeded_world
     = (Response (JObj [("error", JStr "invalid bin")]) 400, seeded_world)
  /\ trigger_alert env_sending "Yellow" seeded_world
     = (Response (JObj [("error", JStr "invalid bin")]) 400, seeded_world).
Proof.
  apply (unknown_bin_rejected env_sending "Yellow"
           (Some (JObj [("level", JInt 95)])) (Some "5") seeded_world);
    discriminate.
Defined.

(** X2: an update of one bin leaves the row of every other bin, and the
    settings, as they were. *)
Theorem update_level_other_bins_untouched e bin body w other :
  other <> bin ->
  bin_of (snd (update_level e bin body w)) other = bin_of w other
  /\ settings (store (snd (update_level e bin body w))) = settings (store w).
Proof.
  intros Hne.
  destruct (update_level_unchanged_or_stored e bin body w)
    as [-> | (lv & Hv & Hx & Hfit)]; [now split|].
  destruct (update_level_effect e bin body w lv Hv Hx Hfit)
    as (w' & -> & Hb & _ & Hs & _).
  simpl snd. split; [|exact Hs].
  unfold bin_of. rewrite Hb. apply find_bin_save_other. simpl. congruence.
Qed.

Lemma update_level_other_bins_untouched_witness :
  bin_of (snd (update_level env_sending "yellow"
                 (Some (JObj [("level", JInt 91)])) seeded_world)) "green"
  = Some (mkBin "green" (Some 990%Q) 40).
Proof.
  refine (eq_trans
            (proj1 (update_level_other_bins_untouched env_sending "yellow"
                      (Some (JObj [("level", JInt 91)])) seeded_world "green"
                      _)) _);
    [discriminate | reflexivity].
Defined.



(** ** Two requests in a row *)



(** X5: after a qualifying update whose send failed, the next update of
    the bin is judged against the last alert time of before: it calls
    the notifier again as soon as its level is at least 80 (and fits the
    store), when the clock has not gone back and the cooldown setting is
    the same. *)
Theorem failed_alert_is_retried e1 e2 bin body1 body2 lv1 lv2 w :
  valid_bin bin = true ->
  extract_level e1 (body_or_empty body1) = inr lv1 ->
  extract_level e2 (body_or_empty body2) = inr lv2 ->
  - 2 ^ 63 <= lv1 < 2 ^ 63 ->
  - 2 ^ 63 <= lv2 < 2 ^ 63 ->
  80 <= lv1 ->
  (inject_Z (ALERT_COOLDOWN_SECONDS (conf e1))
   <= time_time e1 - stored_last_alert w bin)%Q ->
  res_sent (send_outcome e1 bin lv1) = false ->
  80 <= lv2 ->
  ALERT_COOLDOWN_SECONDS (conf e2) = ALERT_COOLDOWN_SECONDS (conf e1) ->
  (time_time e1 <= time_time e2)%Q ->
  new_sms_calls (snd (update_level e1 bin body1 w))
    (snd (update_level e2 bin body2 (snd (update_level e1 bin body1 w))))
  = [(bin, lv2)].
Proof.
  intros Hv H1 H2 Hfit1 Hfit2 Hlv1 Hcd1 Hs Hlv Hcd Ht.
  apply sqlite_int_spec in Hfit1. apply sqlite_int_spec in Hfit2.
  set (w1 := snd (update_level e1 bin body1 w)).
  assert (Hlast : stored_last_alert w1 bin = stored_last_alert w bin).
  { unfold w1.
    rewrite (stored_last_alert_after_update e1 bin body1 w lv1 Hv H1 Hfit1).
    now rewrite Hs, andb_false_r. }
  destruct (update_level_calls e2 bin body2 w1 lv2 Hv H2 Hfit2) as [Hc _].
  rewrite Hc.
  assert (HQ2 : qualifiesb e2 lv2 (last_alert_of w1 bin) = true).
  { apply qualifiesb_stored_spec. rewrite Hlast. split; [exact Hlv|].
    rewrite Hcd. eapply Qle_trans; [exact Hcd1|].
    unfold Qminus. apply Qplus_le_compat; [exact Ht | apply Qle_refl]. }
  now rewrite HQ2.
Qed.

Lemma failed_alert_is_retried_witness :
  new_sms_calls
    (snd (update_level env_failing "yellow" (Some (JObj [("level", JInt 90)]))
            seeded_world))
    (snd (update_level env_five_seconds_later "yellow"
            (Some (JObj [("level", JInt 88)]))
            (snd (update_level env_failing "yellow"
                    (Some (JObj [("level", JInt 90)])) seeded_world))))
  = [("yellow", 88)].
Proof.
  apply (failed_alert_is_retried env_failing env_five_seconds_later "yellow"
           (Some (JObj [("level", JInt 90)]))
           (Some (JObj [("level", JInt 88)])) 90 88 seeded_world);
    try reflexivity; try lia; vm_compute; discriminate.
Defined.

(** ** The manual trigger and the notifier *)

Lemma trigger_alert_effect e bin w b :
  valid_bin bin = true ->
  bin_of w bin = Some b ->
  exists w',
    trigger_alert e bin w
    = (match send_outcome e bin (latest_level b) with
       | Sent sid =>
           Response (JObj [("status", JStr "alert_sent"); ("sid", JStr sid)])
                    200
       | NotSent err =>
           Response (JObj [("status", JStr "alert_failed");
                           ("error", JStr err)]) 500
       end, w')
    /\ bins (store w')
       = (if res_sent (send_outcome e bin (latest_level b))
          then save_bin_rows (set_last_alert_ts (time_time e) b)
                 (bins (store w))
          else bins (store w))
    /\ readings_tbl (store w') = readings_tbl (store w)
    /\ settings (store w') = settings (store w)
    /\ action_logs (store w')
       = action_logs (store w)
         ++ [manual_alert_entry e bin (latest_level b)
               (send_outcome e bin (latest_level b))]
    /\ sms_calls w' = sms_calls w ++ [(bin, latest_level b)].
Proof.
  intros Hv Hb. unfold trigger_alert, manual_alert_entry. rewrite Hv.
  unfold bin_of in Hb.
  cbv [negb bind get_store ret]. rewrite Hb.
  cbv [safe_send_sms save_bin log_action modify_store bind get_store
       put_store ret].
  destruct (send_outcome e bin (latest_level b)); simpl;
    eexists; (split; [reflexivity|]); simpl; repeat split; reflexivity.
Qed.

Lemma trigger_alert_no_row e bin w :
  bin_of w bin = None \/ valid_bin bin = false ->
  snd (trigger_alert e bin w) = w.
Proof.
  unfold trigger_alert, bin_of. destruct (valid_bin bin); simpl.
  - intros [H|H]; [|discriminate]. cbv [bind get_store ret]. now rewrite H.
  - reflexivity.
Qed.




(** X7: a successful manual alert at time [t1] starts the cooldown of
    the automatic alerts too: an update of that bin at time [t2], with a
    level that fits the store, calls the notifier exactly when its level
    is at least 80 and [t2 - t1] has reached the cooldown. *)
Theorem manual_alert_starts_cooldown e1 e2 bin body lv w b :
  valid_bin bin = true ->
  bin_of w bin = Some b ->
  res_sent (send_outcome e1 bin (latest_level b)) = true ->
  extract_level e2 (body_or_empty body) = inr lv ->
  - 2 ^ 63 <= lv < 2 ^ 63 ->
  new_sms_calls (snd (trigger_alert e1 bin w))
    (snd (update_level e2 bin body (snd (trigger_alert e1 bin w))))
  = [(bin, lv)]
  <-> 80 <= lv
      /\ (inject_Z (ALERT_COOLDOWN_SECONDS (conf e2))
          <= time_time e2 - time_time e1)%Q.
Proof.
  intros Hv Hb Hs Hx Hfit. apply sqlite_int_spec in Hfit.
  destruct (trigger_alert_effect e1 bin w b Hv Hb) as (w1 & Ht & Hbins & _).
  rewrite Ht. simpl snd. rewrite Hs in Hbins.
  assert (Hlast : qualifiesb e2 lv (last_alert_of w1 bin)
                  = qualifiesb e2 lv (time_time e1)).
  { unfold last_alert_of, bin_of. rewrite Hbins.
    rewrite find_bin_save_same
      by (simpl; apply (find_bin_name _ _ _ Hb)).
    apply qualifiesb_last_alert_or_0. }
  rewrite (proj1 (update_level_calls e2 bin body w1 lv Hv Hx Hfit)), Hlast.
  pose proof (qualifiesb_spec e2 lv (time_time e1)) as Hq.
  unfold qualifies, ALERT_THRESHOLD in Hq.
  destruct (qualifiesb e2 lv (time_time e1)).
  - split; [intros _; now apply Hq | reflexivity].
  - split; [discriminate | intros H; apply Hq in H; discriminate].
Qed.

Lemma manual_alert_starts_cooldown_witness :
  ~ (new_sms_calls (snd (trigger_alert env_sending "blue" seeded_world))
       (snd (update_level env_five_seconds_later "blue"
               (Some (JObj [("level", JInt 96)]))
               (snd (trigger_alert env_sending "blue" seeded_world))))
     = [("blue", 96)]).
Proof.
  intros H.
  apply (manual_alert_starts_cooldown env_sending env_five_seconds_later
           "blue" (Some (JObj [("level", JInt 96)])) 96 seeded_world
           (mkBin "blue" None 95) eq_refl eq_refl eq_refl eq_refl
           ltac:(lia)) in H.
  destruct H as [_ H]. vm_compute in H. now apply H.
Defined.

(** ** Unique bin names *)

Lemma init_bin_row_unique l n :
  List.NoDup (map name l) -> List.NoDup (map name (init_bin_row l n)).
Proof.
  intros H. unfold init_bin_row. destruct (find_bin n l) eqn:F; [exact H|].
  rewrite map_app. simpl.
  apply NoDup_snoc; [exact H | now apply find_bin_none_notin].
Qed.

(** X8: the names in the [bins] table stay pairwise distinct under
    every request that writes to it: [update_level] (whatever the bin
    name and the body), [trigger_alert] and [init_bins_if_needed]. *)
Theorem bin_names_stay_unique e bin body w :
  unique_bins w ->
  unique_bins (snd (update_level e bin body w))
  /\ unique_bins (snd (trigger_alert e bin w))
  /\ unique_bins (snd (init_bins_if_needed w)).
Proof.
  unfold unique_bins. intros H. split; [|split].
  - destruct (update_level_unchanged_or_stored e bin body w)
      as [-> | (lv & Hv & Hx & Hfit)]; [exact H|].
    destruct (update_level_effect e bin body w lv Hv Hx Hfit)
      as (w' & -> & Hb & _).
    simpl snd. rewrite Hb. now apply save_bin_rows_unique.
  - destruct (valid_bin bin) eqn:Hv;
      [|rewrite trigger_alert_no_row; auto].
    destruct (bin_of w bin) as [b|] eqn:Hb;
      [|rewrite trigger_alert_no_row; auto].
    destruct (trigger_alert_effect e bin w b Hv Hb) as (w' & -> & Hbins & _).
    simpl snd. rewrite Hbins.
    destruct (res_sent _); [now apply save_bin_rows_unique | exact H].
  - cbv [init_bins_if_needed modify_store bind get_store put_store]. simpl.
    now repeat apply init_bin_row_unique.
Qed.

Lemma bin_names_stay_unique_witness :
  unique_bins seeded_world
  /\ unique_bins (snd (update_level env_sending "green"
                         (Some (JObj [("level", JInt 81)])) seeded_world)).
Proof.
  assert (H : unique_bins seeded_world).
  { unfold unique_bins. simpl.
    repeat (constructor; [simpl; intuition discriminate|]). constructor. }
  split; [exact H|].
  exact (proj1 (bin_names_stay_unique env_sending "green"
                  (Some (JObj [("level", JInt 81)])) seeded_world H)).
Defined.

(** ** [init_bins_if_needed] *)

Lemma find_bin_snoc n l b :
  find_bin n (l ++ [b])
  = match find_bin n l with
    | Some x => Some x
    | None => if String.eqb (name b) n then Some b else None
    end.
Proof.
  unfold find_bin. induction l as [|b' l IH]; simpl.
  - now destruct (String.eqb (name b) n).
  - now destruct (String.eqb (name b') n).
Qed.

Lemma find_bin_init_row n l m :
  find_bin n (init_bin_row l m)
  = match find_bin n l with
    | Some x => Some x
    | None => if String.eqb m n then Some (default_bin m) else None
    end.
Proof.
  unfold init_bin_row. destruct (find_bin m l) as [x|] eqn:F.
  - destruct (find_bin n l) eqn:G; [reflexivity|].
    destruct (String.eqb_spec m n) as [<-|]; [congruence | reflexivity].
  - now rewrite find_bin_snoc.
Qed.

(** X9: [init_bins_if_needed] gives each of the three bins a row,
    keeping a row that exists and creating a missing one with level 0
    and last alert time 0; it touches no other row, running it again
    changes nothing, and afterwards [trigger_alert] on a valid bin never
    answers "bin not found". *)
Theorem init_bins_creates_missing_rows w :
  (forall n, valid_bin n = true ->
     bin_of (snd (init_bins_if_needed w)) n
     = Some (match bin_of w n with Some b => b | None => mkBin n (Some 0%Q) 0 end))
  /\ (forall n b, bin_of w n = Some b ->
        bin_of (snd (init_bins_if_needed w)) n = Some b)
  /\ (forall n, valid_bin n = false ->
        bin_of (snd (init_bins_if_needed w)) n = bin_of w n)
  /\ snd (init_bins_if_needed (snd (init_bins_if_needed w)))
     = snd (init_bins_if_needed w)
  /\ (forall e n, valid_bin n = true ->
        fst (trigger_alert e n (snd (init_bins_if_needed w)))
        <> Response (JObj [("error", JStr "bin not found")]) 404).
Proof.
  assert (Hfind : forall n,
            bin_of (snd (init_bins_if_needed w)) n
            = match bin_of w n with
              | Some b => Some b
              | None => if valid_bin n then Some (default_bin n) else None
              end).
  { intros n. unfold bin_of.
    cbv [init_bins_if_needed modify_store bind get_store put_store].
    cbn [snd store bins]. unfold BIN_NAMES. cbn [fold_left].
    rewrite !find_bin_init_row.
    destruct (find_bin n (bins (store w))); [reflexivity|].
    unfold valid_bin. cbn [existsb]. rewrite !(String.eqb_sym n).
    destruct (String.eqb_spec "yellow" n) as [<-|]; [reflexivity|].
    destruct (String.eqb_spec "green" n) as [<-|]; [reflexivity|].
    destruct (String.eqb_spec "blue" n) as [<-|]; reflexivity. }
  assert (Hvalid : forall n, valid_bin n = true ->
            bin_of (snd (init_bins_if_needed w)) n
            = Some (match bin_of w n with
                    | Some b => b
                    | None => mkBin n (Some 0%Q) 0
                    end)).
  { intros n Hv. rewrite Hfind, Hv. now destruct (bin_of w n). }
  split; [exact Hvalid|]. split; [|split; [|split]].
  - intros n b Hb. now rewrite Hfind, Hb.
  - intros n Hv. rewrite Hfind, Hv. now destruct (bin_of w n).
  - set (w1 := snd (init_bins_if_needed w)).
    assert (H3 : forall n, valid_bin n = true ->
               exists b, find_bin n (bins (store w1)) = Some b).
    { intros n Hv. specialize (Hvalid n Hv). unfold bin_of in Hvalid. eauto. }
    destruct (H3 "yellow" eq_refl) as [b1 H1].
    destruct (H3 "green" eq_refl) as [b2 H2].
    destruct (H3 "blue" eq_refl) as [b3 H4].
    cbv [init_bins_if_needed modify_store bind get_store put_store].
    cbn [snd store bins readings_tbl settings action_logs sms_calls].
    unfold BIN_NAMES. cbn [fold_left].
    unfold init_bin_row at 3. fold w1. rewrite H1.
    unfold init_bin_row at 2. rewrite H2.
    unfold init_bin_row. rewrite H4. now destruct w1 as [[? ? ? ?] ?].
  - intros e n Hv.
    specialize (Hvalid n Hv).
    destruct (trigger_alert_effect e n _ _ Hv Hvalid) as (w' & -> & _).
    simpl fst. destruct (send_outcome e n _); discriminate.
Qed.

(** ** Settings and the pause flag *)

Lemma find_setting_set_other k k' v l :
  k' <> k -> find_setting k' (set_setting_rows k v l) = find_setting k' l.
Proof.
  intros Hne. unfold find_setting. induction l as [|s l IH]; simpl.
  - destruct (String.eqb_spec k k'); [congruence | reflexivity].
  - destruct (String.eqb_spec (key s) k) as [E|E]; simpl.
    + destruct (String.eqb_spec (key s) k'); [congruence | reflexivity].
    + destruct (String.eqb_spec (key s) k'); [reflexivity | exact IH].
Qed.

Lemma set_setting_rows_keys k v l :
  map key (set_setting_rows k v l)
  = match find_setting k l with
    | Some _ => map key l
    | None => map key l ++ [k]
    end.
Proof.
  unfold find_setting. induction l as [|s l IH]; simpl; [reflexivity|].
  destruct (String.eqb_spec (key s) k) as [E|E]; simpl; [reflexivity|].
  rewrite IH. now destruct (List.find _ l).
Qed.

Lemma find_setting_none_notin k l :
  find_setting k l = None -> ~ In k (map key l).
Proof.
  unfold find_setting. induction l as [|s l IH]; simpl; [tauto|].
  destruct (String.eqb_spec (key s) k); [discriminate|].
  intros H [E|E]; [contradiction | exact (IH H E)].
Qed.

Lemma set_setting_rows_twice k v1 v2 l :
  set_setting_rows k v2 (set_setting_rows k v1 l) = set_setting_rows k v2 l.
Proof.
  induction l as [|s l IH]; simpl.
  - now rewrite String.eqb_refl.
  - destruct (String.eqb (key s) k) eqn:E; simpl; rewrite E;
      [reflexivity | now rewrite IH].
Qed.

(** X10: [get_setting] after [set_setting] of the same key returns the
    value set, whatever the default; other keys read as before; a key
    never gets a second row; and setting a key twice leaves what the
    second call alone would. *)
Theorem setting_round_trip k v w :
  (forall dflt, fst (get_setting k dflt (snd (set_setting k v w))) = v)
  /\ (forall k' dflt,
        k' <> k ->
        fst (get_setting k' dflt (snd (set_setting k v w)))
        = fst (get_setting k' dflt w))
  /\ (unique_settings w -> unique_settings (snd (set_setting k v w)))
  /\ (forall v', snd (set_setting k v' (snd (set_setting k v w)))
                 = snd (set_setting k v' w)).
Proof.
  cbv [get_setting set_setting modify_store bind get_store put_store ret
       unique_settings].
  simpl. split; [|split; [|split]].
  - intros dflt.
    destruct (find_setting_set_ex k v (settings (store w))) as (st & -> & Hv).
    exact Hv.
  - intros k' dflt Hne. now rewrite find_setting_set_other.
  - intros H. rewrite set_setting_rows_keys.
    destruct (find_setting k (settings (store w))) eqn:F; [exact H|].
    apply NoDup_snoc; [exact H | now apply find_setting_none_notin].
  - intros v'. now rewrite set_setting_rows_twice.
Qed.

(** X11: [patch_config] writes only when the body is a JSON object with
    the key "simulator_paused".  For every other body (absent,
    unparseable, an object without the key, an array, a string, a
    number) the store is left exactly as it was, and the request either
    reports the current flag with an empty "changed" list or ends in a
    [TypeError]. *)
Theorem patch_config_only_writes_for_key e body w :
  (forall d, body = Some (JObj d) -> dict_mem "simulator_paused" d = false) ->
  snd (patch_config e body w) = w
  /\ (fst (patch_config e body w)
      = Response (JObj [("status", JStr "ok");
                        ("simulator_paused", JBool (paused_flag w));
                        ("changed", JArr [])]) 200
      \/ fst (patch_config e body w) = Uncaught TypeError).
Proof.
  intros Hb.
  assert (Hok : forall w0,
            (let* flag := get_setting "simulator_paused" "false" in
             ret (patch_config_response flag [])) w0
            = (Response (JObj [("status", JStr "ok");
                               ("simulator_paused", JBool (paused_flag w0));
                               ("changed", JArr [])]) 200, w0)).
  { intros w0. cbv [bind get_setting get_store ret patch_config_response
                    paused_flag]. simpl.
    now destruct (find_setting "simulator_paused" (settings (store w0))). }
  assert (Hobj : forall d, body_or_empty body = JObj d ->
                   dict_mem "simulator_paused" d = false).
  { intros d. unfold body_or_empty, py_or. destruct body as [j|].
    - destruct (truthy j) eqn:T.
      + intros ->. now apply Hb.
      + intros [= <-]. reflexivity.
    - intros [= <-]. reflexivity. }
  unfold patch_config.
  destruct (py_contains "simulator_paused" (body_or_empty body))
    as [ex|[|]] eqn:C.
  - assert (ex = TypeError) as ->.
    { unfold py_contains in C.
      destruct (body_or_empty body); congruence. }
    simpl. auto.
  - destruct (body_or_empty body) as [| b | z | f | s0 | items | d] eqn:B;
      try (simpl; auto; fail).
    simpl in C. rewrite (Hobj d eq_refl) in C. discriminate C.
  - rewrite Hok. simpl. auto.
Qed.

Lemma patch_config_only_writes_for_key_witness :
  snd (patch_config env_sending (Some (JArr [JStr "simulator_paused"]))
         seeded_world) = seeded_world
  /\ snd (patch_config env_sending (Some (JObj [("paused", JBool true)]))
            seeded_world) = seeded_world.
Proof.
  split.
  - apply (patch_config_only_writes_for_key env_sending
             (Some (JArr [JStr "simulator_paused"])) seeded_world).
    intros d H. discriminate H.
  - apply (patch_config_only_writes_for_key env_sending
             (Some (JObj [("paused", JBool true)])) seeded_world).
    intros d H. injection H as <-. reflexivity.
Defined.

(** ** [get_levels] *)

Lemma dict_get_set n k v d :
  dict_get n (dict_set k v d) = if String.eqb k n then v else dict_get n d.
Proof.
  induction d as [|[k' v'] d IH]; simpl.
  - reflexivity.
  - destruct (String.eqb_spec k' k) as [->|E]; simpl.
    + now destruct (String.eqb k n).
    + destruct (String.eqb_spec k' n) as [->|E'].
      * destruct (String.eqb_spec k n); [congruence | reflexivity].
      * exact IH.
Qed.

Lemma levels_dict_snoc l b :
  levels_dict (l ++ [b])
  = dict_set (name b) (JInt (latest_level b)) (levels_dict l).
Proof. unfold levels_dict. now rewrite fold_left_app. Qed.

(** Each name is listed with the level of its row; with rows of one
    name, the last one counts. *)
Lemma levels_dict_get n l :
  List.NoDup (map name l) ->
  dict_get n (levels_dict l)
  = match find_bin n l with
    | Some b => JInt (latest_level b)
    | None => JNull
    end.
Proof.
  induction l as [|b l IH] using rev_ind; intros Hu; [reflexivity|].
  rewrite levels_dict_snoc, dict_get_set, find_bin_snoc.
  rewrite map_app in Hu. simpl in Hu.
  destruct (String.eqb_spec (name b) n) as [<-|E].
  - destruct (find_bin (name b) l) eqn:F; [|reflexivity].
    apply find_bin_some_in in F. apply NoDup_remove_2 in Hu.
    rewrite app_nil_r in Hu. contradiction.
  - rewrite IH by (now apply NoDup_remove_1 in Hu; rewrite app_nil_r in Hu).
    now destruct (find_bin n l).
Qed.

(** X12: after an update with a level that fits the store,
    [get_levels] lists the new level under the name of the bin and,
    under every other name, the level that bin had before; a name
    without a row is not listed.  The names in the table are taken to be
    distinct, as the unique constraint has them. *)
Theorem get_levels_after_update e bin body w lv :
  unique_bins w ->
  valid_bin bin = true ->
  extract_level e (body_or_empty body) = inr lv ->
  - 2 ^ 63 <= lv < 2 ^ 63 ->
  exists d,
    get_levels (snd (update_level e bin body w))
    = (Response (JObj d) 200, snd (update_level e bin body w))
    /\ dict_get bin d = JInt lv
    /\ (forall other,
          other <> bin ->
          dict_get other d
          = match bin_of w other with
            | Some b => JInt (latest_level b)
            | None => JNull
            end).
Proof.
  intros Hu Hv Hx Hfit. apply sqlite_int_spec in Hfit.
  pose proof (update_level_bin_row e bin body w lv Hv Hx Hfit) as Hrow.
  destruct (update_level_effect e bin body w lv Hv Hx Hfit)
    as (w' & Hrun & Hb & _).
  rewrite Hrun in *. simpl snd in *.
  assert (Hu' : List.NoDup (map name (bins (store w')))).
  { rewrite Hb. now apply save_bin_rows_unique. }
  eexists. split; [reflexivity|]. split.
  - rewrite (levels_dict_get _ _ Hu'). unfold bin_of in Hrow. now rewrite Hrow.
  - intros other Hne. rewrite (levels_dict_get _ _ Hu'), Hb.
    rewrite find_bin_save_other by (simpl; congruence). reflexivity.
Qed.

Lemma get_levels_after_update_witness :
  exists d,
    fst (get_levels (snd (update_level env_sending "green"
                            (Some (JObj [("level", JInt 63)])) seeded_world)))
    = Response (JObj d) 200
    /\ dict_get "green" d = JInt 63
    /\ dict_get "blue" d = JInt 95.
Proof.
  assert (Hu : unique_bins seeded_world).
  { unfold unique_bins. simpl.
    repeat (constructor; [simpl; intuition discriminate|]). constructor. }
  destruct (get_levels_after_update env_sending "green"
              (Some (JObj [("level", JInt 63)])) seeded_world 63
              Hu eq_refl eq_refl ltac:(lia)) as (d & Hd & Hg & Ho).
  exists d. rewrite Hd. split; [reflexivity|]. split; [exact Hg|].
  rewrite (Ho "blue") by discriminate. reflexivity.
Defined.

(** ** Readings after an update *)

Lemma order_by_ts_desc_newest l r :
  (forall x, In x l -> ts x < ts r) ->
  order_by_ts_desc (l ++ [r]) = r :: order_by_ts_desc l.
Proof.
  induction l as [|a l IH]; intros H; simpl; [reflexivity|].
  rewrite IH by (intros x Hx; apply H; now right). simpl.
  specialize (H a (or_introl eq_refl)).
  destruct (Z.leb_spec (ts r) (ts a)); [lia | reflexivity].
Qed.

Lemma filter_by_bin_snoc bin l r :
  bin_name r = bin ->
  filter_by_bin bin (l ++ [r]) = filter_by_bin bin l ++ [r].
Proof.
  intros Hr. unfold filter_by_bin. rewrite List.filter_app. simpl.
  now rewrite Hr, String.eqb_refl.
Qed.

(** X13: a reading just stored is the last row that [readings] returns
    for its bin, for every limit [n] with [1 <= n < 2^63], provided the
    level fits the store and the clock of the update is ahead of every
    reading the bin already has; the rows before it are what the limit
    [n - 1] gave before the update. *)
Theorem readings_end_with_latest_update e bin body w lv n :
  valid_bin bin = true ->
  extract_level e (body_or_empty body) = inr lv ->
  - 2 ^ 63 <= lv < 2 ^ 63 ->
  (forall r, In r (readings_tbl (store w)) ->
             bin_name r = bin -> ts r < utcnow e) ->
  1 <= n < 2 ^ 63 ->
  exists rows,
    readings_rows bin (n - 1) (readings_tbl (store w)) = inr rows
    /\ readings_rows bin n
         (readings_tbl (store (snd (update_level e bin body w))))
       = inr (rows ++ [mkReading bin lv (utcnow e)]).
Proof.
  intros Hv Hx Hfit Hold Hn. apply sqlite_int_spec in Hfit.
  destruct (update_level_effect e bin body w lv Hv Hx Hfit)
    as (w' & -> & _ & Hr & _).
  simpl snd. rewrite Hr.
  unfold readings_rows, readings_query, limit.
  rewrite (proj2 (sqlite_int_spec n)) by lia.
  rewrite (proj2 (sqlite_int_spec (n - 1))) by lia.
  destruct (Z.ltb_spec n 0); [lia|]. destruct (Z.ltb_spec (n - 1) 0); [lia|].
  eexists. split; [reflexivity|].
  rewrite filter_by_bin_snoc by reflexivity.
  rewrite order_by_ts_desc_newest.
  - replace (Z.to_nat n) with (S (Z.to_nat (n - 1))) by lia. reflexivity.
  - intros x Hx'. unfold filter_by_bin in Hx'.
    apply List.filter_In in Hx' as [Hin Hb]. apply String.eqb_eq in Hb.
    simpl. now apply Hold.
Qed.

Lemma readings_end_with_latest_update_witness :
  readings_rows "yellow" 2
    (readings_tbl
       (store (snd (update_level env_clock_200 "yellow"
                      (Some (JObj [("level", JInt 44)])) sample_readings))))
  = inr [mkReading "yellow" 20 130; mkReading "yellow" 44 200].
Proof.
  destruct (readings_end_with_latest_update env_clock_200 "yellow"
              (Some (JObj [("level", JInt 44)])) sample_readings 44 2)
    as (rows & Hbefore & Hafter).
  - reflexivity.
  - reflexivity.
  - lia.
  - simpl. intros r [<-|[<-|[<-|[<-|[]]]]] Hb; simpl; try lia; discriminate.
  - lia.
  - rewrite Hafter. vm_compute in Hbefore. injection Hbefore as <-.
    reflexivity.
Defined.

(** ** [get_actions] and the limits *)







(** X15: the query argument [n] of [readings] and [get_actions] is read
    with [int]: a text that [int] refuses ends the request in an
    uncaught [ValueError], an integer outside 64 signed bits in an
    uncaught [OverflowError] (no error response is built, nothing
    changes), and without the argument at most 100 readings,
    respectively 50 audit entries, are returned. *)
Theorem limit_argument_edge_cases e bin w :
  valid_bin bin = true ->
  (forall s, int_str e s = None ->
     readings e bin (Some s) w = (Uncaught ValueError, w)
     /\ get_actions e (Some s) w = (Uncaught ValueError, w))
  /\ (forall s n, int_str e s = Some n -> ~ (- 2 ^ 63 <= n < 2 ^ 63) ->
        readings e bin (Some s) w = (Uncaught OverflowError, w)
        /\ get_actions e (Some s) w = (Uncaught OverflowError, w))
  /\ (exists rows,
        readings e bin None w
        = (Response (JArr (map (reading_json e) rows)) 200, w)
        /\ (length rows <= 100)%nat)
  /\ (exists rows,
        get_actions e None w
        = (Response (JArr (map (action_json e) rows)) 200, w)
        /\ (length rows <= 50)%nat).
Proof.
  intros Hv. split; [|split; [|split]].
  - intros s Hs. unfold readings, get_actions, py_int. now rewrite Hv, Hs.
  - intros s n Hs Hn. apply sqlite_int_false in Hn.
    unfold readings, get_actions, py_int. rewrite Hv, Hs.
    cbv [negb bind get_store ret].
    unfold readings_rows, readings_query, limit, actions_rows, limit_logs.
    now rewrite Hn.
  - exists (rev (firstn 100 (order_by_ts_desc
                            (filter_by_bin bin (readings_tbl (store w)))))).
    unfold readings. rewrite Hv. split; [reflexivity|].
    rewrite length_rev, length_firstn. lia.
  - exists (firstn 50 (order_by_log_ts_desc (action_logs (store w)))).
    unfold get_actions. split; [reflexivity|].
    rewrite length_firstn. lia.
Qed.

Lemma limit_argument_edge_cases_witness :
  readings env_sending "yellow" (Some "ten") sample_readings
  = (Uncaught ValueError, sample_readings)
  /\ get_actions env_sending (Some "-9223372036854775809") sample_readings
     = (Uncaught OverflowError, sample_readings).
Proof.
  destruct (limit_argument_edge_cases env_sending "yellow" sample_readings
              eq_refl) as (H1 & H2 & _).
  split; [exact (proj1 (H1 "ten" eq_refl))|].
  apply (H2 "-9223372036854775809" (- 2 ^ 63 - 1)); [reflexivity | lia].
Defined.

(** ** Invariants of the store under any sequence of requests *)

Lemma patch_config_tables e body w :
  bins (store (snd (patch_config e body w))) = bins (store w)
  /\ readings_tbl (store (snd (patch_config e body w))) = readings_tbl (store w)
  /\ sms_calls (snd (patch_config e body w)) = sms_calls w
  /\ exists newa,
       action_logs (store (snd (patch_config e body w)))
       = action_logs (store w) ++ newa.
Proof.
  unfold patch_config.
  destruct (py_contains "simulator_paused" (body_or_empty body)) as [ex|[|]];
    [| destruct (py_getitem (body_or_empty body) "simulator_paused") |];
    cbv [bind set_setting log_action get_setting modify_store get_store
         put_store ret]; simpl; repeat split; eauto using app_nil_r;
    exists []; now rewrite app_nil_r.
Qed.

Lemma read_only_requests e r w :
  match r with
  | GetLevels | Readings _ _ | GetConfig | GetActions _ => True
  | _ => False
  end ->
  snd (handle e r w) = w.
Proof.
  destruct r as [| b body | b n | | body | n | b]; cbn [handle]; try tauto;
    intros _; try reflexivity.
  - unfold readings. destruct (valid_bin b); cbv [negb]; [|reflexivity].
    destruct (match n with
              | Some s => py_int (int_str e) (JStr s)
              | None => inr 100
              end) as [ex|k]; [reflexivity|].
    cbv [bind get_store ret].
    now destruct (readings_rows b k (readings_tbl (store w))).
  - unfold get_actions.
    destruct (match n with
              | Some s => py_int (int_str e) (JStr s)
              | None => inr 50
              end) as [ex|k]; [reflexivity|].
    cbv [bind get_store ret].
    now destruct (actions_rows k (action_logs (store w))).
Qed.

Lemma Forall_save_bin_rows (P : Bin -> Prop) b l :
  P b -> Forall P l -> Forall P (save_bin_rows b l).
Proof.
  intros Hb. induction 1 as [|b' l Hb' Hl IH]; simpl.
  - now constructor.
  - destruct (String.eqb (name b') (name b)); now constructor.
Qed.

(** What one request may do to the tables. *)
Lemma handle_keeps e r w :
  (exists newr,
     readings_tbl (store (snd (handle e r w))) = readings_tbl (store w) ++ newr
     /\ Forall (fun x => valid_bin (bin_name x) = true) newr)
  /\ (exists newa,
        action_logs (store (snd (handle e r w)))
        = action_logs (store w) ++ newa)
  /\ (exists news, sms_calls (snd (handle e r w)) = sms_calls w ++ news)
  /\ (Forall (fun b => valid_bin (name b) = true) (bins (store w)) ->
      Forall (fun b => valid_bin (name b) = true)
             (bins (store (snd (handle e r w)))))
  /\ (unique_bins w -> unique_bins (snd (handle e r w))).
Proof.
  assert (Hsame : forall w', w' = w ->
            (exists newr,
               readings_tbl (store w') = readings_tbl (store w) ++ newr
               /\ Forall (fun x => valid_bin (bin_name x) = true) newr)
            /\ (exists newa,
                  action_logs (store w') = action_logs (store w) ++ newa)
            /\ (exists news, sms_calls w' = sms_calls w ++ news)
            /\ (Forall (fun b => valid_bin (name b) = true) (bins (store w)) ->
                Forall (fun b => valid_bin (name b) = true) (bins (store w')))
            /\ (unique_bins w -> unique_bins w')).
  { intros w' ->. repeat split; auto; exists []; rewrite app_nil_r; auto. }
  destruct r as [| bin body | bin n | | body | n | bin];
    try (apply Hsame; now apply read_only_requests).
  - (* update_level *)
    simpl handle.
    destruct (update_level_unchanged_or_stored e bin body w)
      as [Hw | (lv & Hv & Hx & Hfit)]; [now apply Hsame|].
    destruct (update_level_effect e bin body w lv Hv Hx Hfit)
      as (w' & -> & Hb & Hr & _ & Ha & Hc).
    simpl snd. unfold unique_bins. rewrite Hb, Hr, Ha, Hc.
    split; [|split; [|split; [|split]]].
    + eexists. split; [reflexivity|]. constructor; [exact Hv | constructor].
    + eexists. reflexivity.
    + eexists. reflexivity.
    + intros H. apply Forall_save_bin_rows; [exact Hv | exact H].
    + apply save_bin_rows_unique.
  - (* patch_config *)
    simpl handle.
    destruct (patch_config_tables e body w) as (Hb & Hr & Hc & newa & Ha).
    unfold unique_bins. rewrite Hb, Hr, Hc, Ha.
    split; [|split; [|split; [|split]]]; auto.
    + exists []. rewrite app_nil_r. auto.
    + eexists. reflexivity.
    + exists []. now rewrite app_nil_r.
  - (* trigger_alert *)
    simpl handle.
    destruct (valid_bin bin) eqn:Hv;
      [|apply Hsame; apply trigger_alert_no_row; auto].
    destruct (bin_of w bin) as [b|] eqn:Hb;
      [|apply Hsame; apply trigger_alert_no_row; auto].
    destruct (trigger_alert_effect e bin w b Hv Hb)
      as (w' & -> & Hbins & Hr & _ & Ha & Hc).
    simpl snd. unfold unique_bins. rewrite Hbins, Hr, Ha, Hc.
    split; [|split; [|split; [|split]]].
    + exists []. rewrite app_nil_r. auto.
    + eexists. reflexivity.
    + eexists. reflexivity.
    + intros H. destruct (res_sent _); [|exact H].
      apply Forall_save_bin_rows; [|exact H]. simpl.
      now rewrite (find_bin_name _ _ _ Hb).
    + intros H. destruct (res_sent _); [now apply save_bin_rows_unique | exact H].
Qed.

(** X16: whatever requests are served, in whatever order and with
    whatever notifier outcomes, the readings and the audit entries that
    were stored stay in place, unchanged and in order, with new ones
    only added after them; the same holds for the record of sends; and a
    GET request changes nothing at all. *)
Theorem history_is_append_only rs w :
  (exists newr,
     readings_tbl (store (serve rs w)) = readings_tbl (store w) ++ newr)
  /\ (exists newa,
        action_logs (store (serve rs w)) = action_logs (store w) ++ newa)
  /\ (exists news, sms_calls (serve rs w) = sms_calls w ++ news)
  /\ (forall e r,
        match r with
        | GetLevels | Readings _ _ | GetConfig | GetActions _ => True
        | _ => False
        end ->
        snd (handle e r w) = w).
Proof.
  split; [|split; [|split]].
  - revert w. induction rs as [|[e r] rs IH]; intros w; simpl.
    + exists []. now rewrite app_nil_r.
    + destruct (IH (snd (handle e r w))) as [n2 H2].
      destruct (handle_keeps e r w) as ((n1 & H1 & _) & _).
      exists (n1 ++ n2). now rewrite H2, H1, app_assoc.
  - revert w. induction rs as [|[e r] rs IH]; intros w; simpl.
    + exists []. now rewrite app_nil_r.
    + destruct (IH (snd (handle e r w))) as [n2 H2].
      destruct (handle_keeps e r w) as (_ & (n1 & H1) & _).
      exists (n1 ++ n2). now rewrite H2, H1, app_assoc.
  - revert w. induction rs as [|[e r] rs IH]; intros w; simpl.
    + exists []. now rewrite app_nil_r.
    + destruct (IH (snd (handle e r w))) as [n2 H2].
      destruct (handle_keeps e r w) as (_ & _ & (n1 & H1) & _).
      exists (n1 ++ n2). now rewrite H2, H1, app_assoc.
  - intros e r. apply read_only_requests.
Qed.

(** X17: if every bin row and every reading carries one of the three
    names and no two rows share a name, this is still so after any
    sequence of requests: the service never stores a row or a reading
    under a name outside the fixed set. *)
Theorem names_stay_valid_and_unique rs w :
  valid_names w -> unique_bins w ->
  valid_names (serve rs w) /\ unique_bins (serve rs w).
Proof.
  revert w. induction rs as [|[e r] rs IH]; intros w Hvn Hu; simpl; [auto|].
  destruct (handle_keeps e r w) as ((newr & Hr & Hnew) & _ & _ & Hb & Hu').
  apply IH; [|now apply Hu'].
  destruct Hvn as [Hbins Hreads]. split; [now apply Hb|].
  rewrite Hr. apply List.Forall_app. now split.
Qed.

Lemma names_stay_valid_and_unique_witness :
  valid_names
    (serve [(env_sending, UpdateLevel "yellow" (Some (JObj [("level", JInt 91)])));
            (env_sending, UpdateLevel "pink" (Some (JObj [("level", JInt 50)])));
            (env_failing, TriggerAlert "green");
            (env_sending, PatchConfig (Some (JObj [("simulator_paused", JInt 1)])))]
       empty_world)
  /\ unique_bins
       (serve [(env_sending, UpdateLevel "yellow" (Some (JObj [("level", JInt 91)])));
               (env_sending, UpdateLevel "pink" (Some (JObj [("level", JInt 50)])));
               (env_failing, TriggerAlert "green");
               (env_sending, PatchConfig (Some (JObj [("simulator_paused", JInt 1)])))]
          empty_world).
Proof.
  apply names_stay_valid_and_unique.
  - split; constructor.
  - constructor.
Defined.

(** * Further properties of the simulator *)

Section GeneratorSteps.

Context {R : RandomSource}.

Lemma empty_chance_certain c : 7 <= c -> (1 <= empty_chance c)%Q.
Proof.
  intros Hc. unfold empty_chance, P_EMPTY_WHEN_FULL, FULL_COUNT_BEFORE_EMPTY.
  unfold Qle, Qplus, Qmult, inject_Z. simpl. lia.
Qed.

Lemma Qlt_bool_false x y : Qlt_bool x y = false -> (y <= x)%Q.
Proof.
  unfold Qlt_bool. rewrite negb_false_iff. apply Qle_bool_iff.
Qed.

(** The emptying decision, by cases on the previous level. *)
Lemma decide_empty_cases name prev fc g c :
  fc !! name = Some c ->
  exists b g1,
    decide_empty name prev fc g
    = inr (b, <[name := if 90 <=? prev then c + 1 else 0]> fc, g1)
    /\ (b = false -> 90 <= prev -> c <= 5).
Proof.
  intros Hc. unfold decide_empty, incr_count.
  destruct (Z.leb_spec 90 prev) as [Hp|Hp].
  - rewrite Hc, lookup_insert_eq.
    pose proof (random_range g) as [_ Hu].
    destruct (random g) as [u g1]. simpl in Hu.
    eexists _, _. split; [reflexivity|].
    intros Hb _. apply Qlt_bool_false in Hb.
    destruct (Z.le_gt_cases c 5) as [|Hgt]; [assumption|exfalso].
    pose proof (empty_chance_certain (c + 1) ltac:(lia)) as H1.
    apply (Qlt_irrefl u). eapply Qlt_le_trans; [exact Hu|].
    eapply Qle_trans; [exact H1 | exact Hb].
  - destruct (random g) as [u g1].
    eexists _, _. split; [reflexivity|]. intros _ Hge. lia.
Qed.

Lemma draw_delta_bounds g : -8 <= fst (draw_delta g) <= 30.
Proof.
  unfold draw_delta. destruct (random g) as [r g1].
  destruct (Qlt_bool r P_BIG_JUMP).
  - pose proof (randint_range 10 30 g1). lia.
  - destruct (Qlt_bool r (P_BIG_JUMP + P_SMALL_DECREASE)).
    + pose proof (randint_range 2 8 g1).
      destruct (randint 2 8 g1) as [x g2]. simpl in *. lia.
    + pose proof (randint_range 1 8 g1). lia.
Qed.

(** One call, by cases: the dictionaries change at the key of the bin
    only; a first level is in [10,35]; otherwise the bin is emptied to
    [0,18] with the streak reset, or the level moves by a delta in
    [-8,30], clamped, and the streak is counted. *)
Lemma generate_next_level_cases name st g :
  state_ok name st ->
  exists new c' g',
    generate_next_level name st g
    = inr (new, mkState (<[name := Some new]> (last_levels st))
                        (<[name := c']> (full_counts st)), g')
    /\ 0 <= new <= 100
    /\ match get_prev name st with
       | None => 10 <= new <= 35 /\ c' = 0
       | Some prev =>
           forall c, full_counts st !! name = Some c ->
             (0 <= new <= 18 /\ c' = 0)
             \/ (prev - 8 <= new <= prev + 30
                 /\ c' = (if 90 <=? new
                          then if 90 <=? prev then c + 2 else 1
                          else 0)
                 /\ (90 <= prev -> c <= 5))
       end.
Proof.
  unfold state_ok, generate_next_level.
  destruct (get_prev name st) as [prev|] eqn:Hprev.
  - intros (Hrange & c & Hc & Hpos).
    destruct (decide_empty_cases name prev (full_counts st) g c Hc)
      as (b & g1 & -> & Hforced).
    destruct b.
    + pose proof (randint_range 0 18 g1 ltac:(lia)) as Hnew.
      destruct (randint 0 18 g1) as [new g2]. simpl in Hnew.
      exists new, 0, g2. rewrite insert_insert_eq.
      split; [reflexivity|]. split; [lia|]. intros c0 _. left. lia.
    + pose proof (draw_delta_bounds g1) as Hd.
      destruct (draw_delta g1) as [delta g2]. simpl in Hd.
      set (new := Z.max 0 (Z.min 100 (prev + delta))).
      exists new,
        (if 90 <=? new then if 90 <=? prev then c + 2 else 1 else 0), g2.
      split; [|split; [unfold new; lia|]].
      * unfold incr_count. destruct (90 <=? new).
        -- rewrite lookup_insert_eq, insert_insert_eq.
           destruct (90 <=? prev); [|reflexivity].
           now replace (c + 1 + 1) with (c + 2) by lia.
        -- now rewrite insert_insert_eq.
      * intros c0 Hc0. right. rewrite Hc in Hc0. injection Hc0 as <-.
        split; [unfold new; lia|]. split; [reflexivity|].
        intros Hp. now apply Hforced.
  - intros _.
    pose proof (randint_range 10 35 g ltac:(lia)) as Hnew.
    destruct (randint 10 35 g) as [new g1]. simpl in Hnew.
    exists new, 0, g1.
    destruct (Z.leb_spec 90 new); [lia|].
    split; [reflexivity|]. split; lia.
Qed.

(** The same, read on the state after the call. *)
Lemma generate_next_level_step name st g :
  state_ok name st ->
  exists new st' g' c',
    generate_next_level name st g = inr (new, st', g')
    /\ 0 <= new <= 100
    /\ get_prev name st' = Some new
    /\ full_counts st' !! name = Some c'
    /\ 0 <= c'
    /\ state_ok name st'
    /\ (forall other, other <> name ->
          last_levels st' !! other = last_levels st !! other
          /\ full_counts st' !! other = full_counts st !! other)
    /\ match get_prev name st with
       | None => 10 <= new <= 35 /\ c' = 0
       | Some prev =>
           forall c, full_counts st !! name = Some c ->
             (0 <= new <= 18 /\ c' = 0)
             \/ (prev - 8 <= new <= prev + 30
                 /\ c' = (if 90 <=? new
                          then if 90 <=? prev then c + 2 else 1
                          else 0)
                 /\ (90 <= prev -> c <= 5))
       end.
Proof.
  intros Hok.
  destruct (generate_next_level_cases name st g Hok)
    as (new & c' & g' & Hrun & Hrange & Hcases).
  assert (Hc' : 0 <= c').
  { unfold state_ok in Hok. destruct (get_prev name st) as [prev|].
    - destruct Hok as (_ & c & Hc & Hpos).
      destruct (Hcases c Hc) as [[_ ->]|(_ & -> & _)]; [lia|].
      destruct (90 <=? new); [destruct (90 <=? prev)|]; lia.
    - destruct Hcases as [_ ->]. lia. }
  eexists new, _, g', c'. split; [exact Hrun|].
  unfold state_ok, get_prev. simpl. rewrite !lookup_insert_eq.
  split; [exact Hrange|]. split; [reflexivity|]. split; [reflexivity|].
  split; [exact Hc'|]. split; [split; [exact Hrange | eauto]|].
  split; [|exact Hcases].
  intros other Hne. now rewrite !lookup_insert_ne by congruence.
Qed.

End GeneratorSteps.

Section GeneratorProperties.

Context {R : RandomSource}.

(** X18: a call for one bin leaves the previous level and the streak
    counter of every other bin as they were, so a state the generator
    accepts for another bin stays one. *)
Theorem generate_next_level_other_bins name other st g :
  state_ok name st ->
  other <> name ->
  exists new st' g',
    generate_next_level name st g = inr (new, st', g')
    /\ get_prev other st' = get_prev other st
    /\ full_counts st' !! other = full_counts st !! other
    /\ (state_ok other st -> state_ok other st').
Proof.
  intros Hok Hne.
  destruct (generate_next_level_step name st g Hok)
    as (new & st' & g' & c' & Hrun & _ & _ & _ & _ & _ & Hframe & _).
  destruct (Hframe other Hne) as [Hl Hf].
  exists new, st', g'. split; [exact Hrun|].
  assert (Hp : get_prev other st' = get_prev other st)
    by (unfold get_prev; now rewrite Hl).
  split; [exact Hp|]. split; [exact Hf|].
  unfold state_ok. now rewrite Hp, Hf.
Qed.

(** X19: the streak counter after a call follows the level returned: it
    is 0 when the level is below 90; when the level is at least 90 it is
    1 if the previous level was below 90, and the old counter plus 2 if
    the previous level was at least 90 as well (one increment at the
    start of the call, one at its end). *)
Theorem streak_counter_follows_levels name st g prev c :
  get_prev name st = Some prev ->
  0 <= prev <= 100 ->
  full_counts st !! name = Some c ->
  0 <= c ->
  exists new st' g' c',
    generate_next_level name st g = inr (new, st', g')
    /\ full_counts st' !! name = Some c'
    /\ (new < 90 -> c' = 0)
    /\ (90 <= new -> prev < 90 -> c' = 1)
    /\ (90 <= new -> 90 <= prev -> c' = c + 2).
Proof.
  intros Hprev Hrange Hc Hpos.
  assert (Hok : state_ok name st).
  { unfold state_ok. rewrite Hprev. eauto. }
  destruct (generate_next_level_step name st g Hok)
    as (new & st' & g' & c' & Hrun & _ & _ & Hc' & _ & _ & _ & Hcases).
  rewrite Hprev in Hcases.
  exists new, st', g', c'. split; [exact Hrun|]. split; [exact Hc'|].
  destruct (Hcases c Hc) as [[Hn ->]|(Hn & -> & _)].
  - repeat split; intros; lia.
  - destruct (Z.leb_spec 90 new); destruct (Z.leb_spec 90 prev);
      repeat split; intros; lia.
Qed.

(** X20: a bin whose previous level is at least 90 and whose streak
    counter has reached 6 is emptied by the next call, whatever the
    random draws: the level returned is in [0,18] and the counter is
    reset to 0. *)
Theorem long_full_streak_forces_emptying name st g prev c :
  get_prev name st = Some prev ->
  90 <= prev <= 100 ->
  full_counts st !! name = Some c ->
  6 <= c ->
  exists new st' g',
    generate_next_level name st g = inr (new, st', g')
    /\ 0 <= new <= 18
    /\ full_counts st' !! name = Some 0.
Proof.
  intros Hprev Hrange Hc Hsix.
  assert (Hok : state_ok name st).
  { unfold state_ok. rewrite Hprev. split; [lia|]. exists c. split; [auto|lia]. }
  destruct (generate_next_level_step name st g Hok)
    as (new & st' & g' & c' & Hrun & _ & _ & Hc' & _ & _ & _ & Hcases).
  rewrite Hprev in Hcases.
  exists new, st', g'. split; [exact Hrun|].
  destruct (Hcases c Hc) as [[Hn ->]|(_ & _ & Hforced)].
  - split; [exact Hn | exact Hc'].
  - specialize (Hforced ltac:(lia)). lia.
Qed.

(** X21: from one call to the next the level rises by at most 30, and it
    falls by more than 8 only when the bin is emptied, in which case the
    new level is at most 18. *)
Theorem level_step_bounds name st g prev :
  state_ok name st ->
  get_prev name st = Some prev ->
  exists new st' g',
    generate_next_level name st g = inr (new, st', g')
    /\ new <= prev + 30
    /\ (new < prev - 8 -> new <= 18).
Proof.
  intros Hok Hprev.
  destruct (generate_next_level_step name st g Hok)
    as (new & st' & g' & c' & Hrun & _ & _ & _ & _ & _ & _ & Hcases).
  unfold state_ok in Hok. rewrite Hprev in Hok, Hcases.
  destruct Hok as (Hrange & c & Hc & _).
  exists new, st', g'. split; [exact Hrun|].
  destruct (Hcases c Hc) as [[Hn _]|(Hn & _)]; split; intros; lia.
Qed.

End GeneratorProperties.

Lemma long_full_state_ok : state_ok "yellow" long_full_state.
Proof.
  unfold state_ok, long_full_state. rewrite get_prev_insert. simpl.
  split; [lia|]. exists 6. rewrite lookup_insert_eq. split; [reflexivity | lia].
Qed.

Lemma generate_next_level_other_bins_witness :
  exists new st' g',
    @generate_next_level lcg_source "yellow" long_full_state 11
    = inr (new, st', g')
    /\ get_prev "green" st' = Some 40
    /\ full_counts st' !! "green" = Some 0.
Proof.
  destruct (@generate_next_level_other_bins lcg_source "yellow" "green"
              long_full_state 11 long_full_state_ok ltac:(discriminate))
    as (new & st' & g' & Hrun & Hp & Hf & _).
  exists new, st', g'. split; [exact Hrun|].
  split; [rewrite Hp | rewrite Hf]; reflexivity.
Defined.

Lemma streak_counter_follows_levels_witness :
  exists new st' g' c',
    @generate_next_level lcg_source "yellow" long_full_state 11
    = inr (new, st', g')
    /\ full_counts st' !! "yellow" = Some c'
    /\ (new < 90 -> c' = 0)
    /\ (90 <= new -> c' = 8).
Proof.
  destruct (@streak_counter_follows_levels lcg_source "yellow" long_full_state
              11 95 6 eq_refl ltac:(lia) eq_refl ltac:(lia))
    as (new & st' & g' & c' & Hrun & Hc & Hlow & _ & Hfull).
  exists new, st', g', c'. split; [exact Hrun|]. split; [exact Hc|].
  split; [exact Hlow|]. intros H. apply Hfull; [exact H | lia].
Defined.

Lemma long_full_streak_forces_emptying_witness :
  exists new st' g',
    @generate_next_level lcg_source "yellow" long_full_state 11
    = inr (new, st', g')
    /\ 0 <= new <= 18
    /\ full_counts st' !! "yellow" = Some 0.
Proof.
  exact (@long_full_streak_forces_emptying lcg_source "yellow" long_full_state
           11 95 6 eq_refl ltac:(lia) eq_refl ltac:(lia)).
Defined.

Lemma level_step_bounds_witness :
  exists new st' g',
    @generate_next_level lcg_source "yellow" long_full_state 11
    = inr (new, st', g')
    /\ new <= 95 + 30
    /\ (new < 95 - 8 -> new <= 18).
Proof.
  exact (@level_step_bounds lcg_source "yellow" long_full_state 11 95
           long_full_state_ok eq_refl).
Defined.

(** ** Consecutive full levels *)

Section FullStreak.

Context {R : RandomSource}.

Lemma generate_levels_total name k st g :
  state_ok name st ->
  exists ls st' g',
    generate_levels name k st g = inr (ls, st', g')
    /\ length ls = k
    /\ Forall (fun l => 0 <= l <= 100) ls
    /\ state_ok name st'.
Proof.
  revert st g. induction k as [|k IH]; intros st g Hok; simpl.
  - exists [], st, g. repeat split; auto.
  - destruct (generate_next_level_step name st g Hok)
      as (new & st1 & g1 & c' & -> & Hrange & _ & _ & _ & Hok1 & _).
    destruct (IH st1 g1 Hok1) as (ls & st' & g' & -> & Hlen & Hall & Hok').
    exists (new :: ls), st', g'. repeat split; simpl; auto.
Qed.

Lemma full_levels_raise_streak name k st g ls st' g' m :
  state_ok name st ->
  full_with_streak name st m ->
  generate_levels name (S k) st g = inr (ls, st', g') ->
  Forall (fun l => 90 <= l) ls ->
  m + 2 * Z.of_nat k <= 5.
Proof.
  revert st g ls st' g' m.
  induction k as [|k IH]; intros st g ls st' g' m Hok Hfull Hrun Hall.
  - simpl in Hrun.
    destruct (generate_next_level_step name st g Hok)
      as (new & st1 & g1 & c' & Hstep & _ & _ & _ & _ & _ & _ & Hcases).
    rewrite Hstep in Hrun. injection Hrun as <- <- <-.
    destruct Hfull as (prev & c & Hprev & Hp & Hc & Hm).
    rewrite Hprev in Hcases. inversion_clear Hall as [|? ? Hnew _].
    destruct (Hcases c Hc) as [[Hn _]|(_ & _ & Hforced)]; [lia|].
    specialize (Hforced Hp). lia.
  - change (generate_levels name (S (S k)) st g)
      with (match generate_next_level name st g with
            | inl ex => inl ex
            | inr (lvl, st1, g1) =>
                match generate_levels name (S k) st1 g1 with
                | inl ex => inl ex
                | inr (ls, st2, g2) => inr (lvl :: ls, st2, g2)
                end
            end) in Hrun.
    destruct (generate_next_level_step name st g Hok)
      as (new & st1 & g1 & c' & Hstep & _ & Hprev1 & Hc1 & _ & Hok1 & _ & Hcases).
    rewrite Hstep in Hrun.
    destruct (generate_levels name (S k) st1 g1) as [ex|[[ls1 st2] g2]] eqn:Hrest;
      [discriminate|].
    injection Hrun as <- <- <-.
    inversion_clear Hall as [|? ? Hnew Hall1].
    destruct Hfull as (prev & c & Hprev & Hp & Hc & Hm).
    rewrite Hprev in Hcases.
    assert (Hc' : c' = c + 2).
    { destruct (Hcases c Hc) as [[Hn _]|(_ & -> & _)]; [lia|].
      destruct (Z.leb_spec 90 new); [|lia].
      destruct (Z.leb_spec 90 prev); [reflexivity | lia]. }
    assert (Hfull1 : full_with_streak name st1 (m + 2)).
    { exists new, c'. repeat split; auto. lia. }
    specialize (IH st1 g1 ls1 st2 g2 (m + 2) Hok1 Hfull1 Hrest Hall1). lia.
Qed.

(** X22: [k] calls in a row for a bin always succeed from a state the
    generator accepts and give [k] levels in [0,100]; they are never all
    at least 90 when [k] is 5 or more: a bin stays full for at most four
    readings in a row. *)
Theorem at_most_four_full_levels_in_a_row name k st g :
  state_ok name st ->
  exists ls st' g',
    generate_levels name k st g = inr (ls, st', g')
    /\ length ls = k
    /\ Forall (fun l => 0 <= l <= 100) ls
    /\ state_ok name st'
    /\ (Forall (fun l => 90 <= l) ls -> (k <= 4)%nat).
Proof.
  intros Hok.
  destruct (generate_levels_total name k st g Hok)
    as (ls & st' & g' & Hrun & Hlen & Hall & Hok').
  exists ls, st', g'. repeat split; auto.
  intros Hfull. destruct k as [|k]; [lia|].
  simpl in Hrun.
  destruct (generate_next_level_step name st g Hok)
    as (new & st1 & g1 & c' & Hstep & _ & Hprev1 & Hc1 & Hpos1 & Hok1 & _
        & Hcases).
  rewrite Hstep in Hrun.
  destruct (generate_levels name k st1 g1) as [ex|[[ls1 st2] g2]] eqn:Hrest;
    [discriminate|].
  injection Hrun as <- <- <-.
  inversion_clear Hfull as [|? ? Hnew Hfull1].
  destruct k as [|k]; [lia|].
  assert (Hone : full_with_streak name st1 1).
  { exists new, c'. repeat split; auto.
    unfold state_ok in Hok. destruct (get_prev name st) as [prev|].
    - destruct Hok as (_ & c & Hc & Hpos).
      destruct (Hcases c Hc) as [[Hn _]|(_ & -> & _)]; [lia|].
      destruct (Z.leb_spec 90 new); [|lia]. destruct (90 <=? prev); lia.
    - lia. }
  pose proof (full_levels_raise_streak name k st1 g1 ls1 st2 g2 1
                Hok1 Hone Hrest Hfull1). lia.
Qed.

End FullStreak.

Lemma at_most_four_full_levels_in_a_row_witness :
  exists ls st' g',
    @generate_levels lcg_source "yellow" 6 full_state 3 = inr (ls, st', g')
    /\ length ls = 6%nat
    /\ ~ Forall (fun l => 90 <= l) ls.
Proof.
  assert (Hok : state_ok "yellow" full_state).
  { unfold state_ok, full_state. rewrite get_prev_insert. simpl.
    split; [lia|]. exists 3. rewrite lookup_insert_eq.
    split; [reflexivity | lia]. }
  destruct (@at_most_four_full_levels_in_a_row lcg_source "yellow" 6
              full_state 3 Hok) as (ls & st' & g' & Hrun & Hlen & _ & _ & H4).
  exists ls, st', g'. split; [exact Hrun|]. split; [exact Hlen|].
  intros H. specialize (H4 H). lia.
Defined.

(** ** C6: the chance of emptying a full bin *)












Section FullReadings.

Context {R : RandomSource}.




End FullReadings.





(** ** The pause flag, from the service to the simulator *)

Lemma patch_config_sets_flag e d w :
  dict_mem "simulator_paused" d = true ->
  paused_flag (snd (patch_config e (Some (JObj d)) w))
  = truthy (dict_get "simulator_paused" d).
Proof.
  intros Hm.
  assert (Hd : body_or_empty (Some (JObj d)) = JObj d).
  { unfold body_or_empty, py_or. now destruct d. }
  unfold patch_config. rewrite Hd. unfold py_contains, py_getitem.
  rewrite Hm.
  set (val := truthy (dict_get "simulator_paused" d)).
  cbv [bind set_setting log_action get_setting modify_store get_store
       put_store ret paused_flag].
  simpl.
  destruct (find_setting_set_ex "simulator_paused" (lower_of_bool val)
              (settings (store w))) as (st & Hst & Hv).
  rewrite Hst, Hv. now destruct val.
Qed.

(** X23: what [fetch_config] makes of the answer of [get_config] is the
    flag the service holds, whatever the simulator had before; so after
    a PATCH with a value [v] under "simulator_paused" the next poll sets
    [_paused] to the truthiness of [v].  A poll that fails, or whose
    answer is not a JSON object, keeps the previous value. *)
Theorem simulator_reads_service_flag w before :
  (exists body,
     fst (get_config w) = Response body 200
     /\ fetch_config (Some body) before = paused_flag w)
  /\ (forall e d,
        dict_mem "simulator_paused" d = true ->
        exists body,
          fst (get_config (snd (patch_config e (Some (JObj d)) w)))
          = Response body 200
          /\ fetch_config (Some body) before
             = truthy (dict_get "simulator_paused" d))
  /\ fetch_config None before = before
  /\ (forall j, (forall d, j <> JObj d) -> fetch_config (Some j) before = before).
Proof.
  assert (Hget : forall w0,
            exists body,
              fst (get_config w0) = Response body 200
              /\ fetch_config (Some body) before = paused_flag w0).
  { intros w0. eexists. split; [reflexivity|].
    cbv [get_config bind get_setting get_store ret paused_flag]. simpl.
    destruct (find_setting "simulator_paused" (settings (store w0)));
      [destruct (String.eqb _ "true")|]; reflexivity. }
  split; [apply Hget|]. split; [|split; [reflexivity|]].
  - intros e d Hm.
    destruct (Hget (snd (patch_config e (Some (JObj d)) w)))
      as (body & Hb & Hf).
    exists body. split; [exact Hb|].
    now rewrite Hf, patch_config_sets_flag.
  - intros j Hj. destruct j; try reflexivity. now destruct (Hj fields).
Qed.

(** ** One turn of the simulator loop *)

Section Turns.

Context {R : RandomSource}.




(** X25: while the simulator is paused nothing is generated or posted
    and no bin is rescheduled: the turn only records the poll.  A poll
    that is due and answered by [get_config] makes the simulator paused
    exactly when the service holds the flag; a poll that is not yet due,
    or fails, leaves the simulator paused or running as it was. *)
Theorem paused_turn_does_nothing t s g :
  (_paused (poll_config t s) = true ->
   exists s',
     turn t s g = inr (s', g)
     /\ sim_bins s' = sim_bins s
     /\ levels s' = levels s
     /\ posted s' = posted s)
  /\ (forall w body,
        fst (get_config w) = Response body 200 ->
        config_response t = Some body ->
        Qle_bool CONFIG_POLL_INTERVAL (now t - _last_config_check s) = true ->
        _paused (poll_config t s) = paused_flag w)
  /\ (config_response t = None \/
      Qle_bool CONFIG_POLL_INTERVAL (now t - _last_config_check s) = false ->
      _paused (poll_config t s) = _paused s).
Proof.
  split; [|split].
  - intros Hp. unfold turn. rewrite Hp. eexists. split; [reflexivity|].
    unfold poll_config. now destruct (Qle_bool _ _).
  - intros w body Hbody Hresp Hdue. unfold poll_config. rewrite Hdue, Hresp.
    simpl. revert Hbody.
    cbv [get_config bind get_setting get_store ret paused_flag]. simpl.
    intros [= <-].
    destruct (find_setting "simulator_paused" (settings (store w)));
      [destruct (String.eqb _ "true")|]; reflexivity.
  - intros H. unfold poll_config.
    destruct (Qle_bool _ _) eqn:E; [|reflexivity].
    destruct H as [-> | H]; [reflexivity | discriminate].
Qed.

End Turns.


(** ** From the generator to the store *)


